(** * pyxmpp.error: XMPP stream and stanza error elements

    A shallow embedding of [pyxmpp/error.py] (Python 2).

    - ElementTree elements are finite trees ([element]); attribute values
      and other dynamically typed data are Python values ([pyval]).
    - Methods that mutate [self] take the object record and return the
      updated one.  Exceptions and the [logger.warning] calls are threaded
      through the small monad [Py]: a computation reads the log written so
      far and gives an outcome (a value or a raised exception) and the new
      log.
    - Names that the module reads at run time are resolved in
      [module_globals]; a name that the module neither defines nor imports
      raises [NameError] when the line that reads it is executed.
    - The classes are embedded on element values, where [deepcopy] rebuilds
      an equal tree.  Object identity (which Element objects an error
      object keeps references to) is modelled in [Module Ownership] with an
      explicit object store. *)

From Stdlib Require Import String Ascii List ZArith Bool Lia.
Import ListNotations.
Open Scope string_scope.
Open Scope list_scope.

(** ** Python values and exceptions *)

(** The dynamically typed scalars that occur in this module: [None],
    [str]/[unicode] text and [int]. *)
Inductive pyval : Type :=
| PyNone
| PyStr (s : string)
| PyInt (z : Z).

(** Python [==] on these values: values of different types are unequal. *)
Definition pyval_eqb (a b : pyval) : bool :=
  match a, b with
  | PyNone, PyNone => true
  | PyStr s, PyStr t => String.eqb s t
  | PyInt x, PyInt y => Z.eqb x y
  | _, _ => false
  end.

(** Python truthiness ([if v:]). *)
Definition truthy (v : pyval) : bool :=
  match v with
  | PyNone => false
  | PyStr s => negb (String.eqb s EmptyString)
  | PyInt z => negb (Z.eqb z 0)
  end.

Inductive exn : Type :=
| TypeError (msg : string)
| ValueError (msg : string)
| NameError (name : string)
| AttributeError (msg : string)
| KeyError (key : pyval)
| IndexError (msg : string).

Inductive outcome (A : Type) : Type :=
| Returns (a : A)
| Raises (e : exn).
Arguments Returns {A} a.
Arguments Raises {A} e.

(** The log of the [pyxmpp.error] logger: the warnings in the order they
    were emitted. *)
Definition log := list string.

Definition Py (A : Type) : Type := log -> outcome A * log.

Definition ret {A} (a : A) : Py A := fun l => (Returns a, l).
Definition raise {A} (e : exn) : Py A := fun l => (Raises e, l).
Definition bind {A B} (m : Py A) (k : A -> Py B) : Py B :=
  fun l => match m l with
           | (Returns a, l') => k a l'
           | (Raises e, l') => (Raises e, l')
           end.
Definition logger_warning (msg : string) : Py unit :=
  fun l => (Returns tt, l ++ [msg]).

Declare Scope py_scope.
Delimit Scope py_scope with py.
Notation "x <- m ;; k" := (bind m (fun x => k))
  (at level 61, m at next level, right associativity) : py_scope.
Notation "m ;;; k" := (bind m (fun _ => k))
  (at level 61, right associativity) : py_scope.
Open Scope py_scope.

(** Run a computation from an empty log. *)
Definition run {A} (m : Py A) : outcome A * log := m [].

(** ** Strings *)

(** [s.startswith(p)] *)
Definition startswith (s p : string) : bool := String.prefix p s.

(** [s.split(sep, 1)] for a one-character separator: the part before the
    first separator and, when there is one, the part after it. *)
Fixpoint split1 (sep : ascii) (s : string) : string * option string :=
  match s with
  | EmptyString => (EmptyString, None)
  | String c s' =>
      if Ascii.eqb c sep then (EmptyString, Some s')
      else let '(h, t) := split1 sep s' in (String c h, t)
  end.

(** [s[1:]] *)
Definition drop_first (s : string) : string :=
  match s with
  | EmptyString => EmptyString
  | String _ s' => s'
  end.

Definition is_space (c : ascii) : bool :=
  match nat_of_ascii c with
  | 9 | 10 | 11 | 12 | 13 | 32 => true
  | _ => false
  end.

Fixpoint lstrip (s : string) : string :=
  match s with
  | EmptyString => EmptyString
  | String c s' => if is_space c then lstrip s' else s
  end.

Fixpoint rstrip (s : string) : string :=
  match s with
  | EmptyString => EmptyString
  | String c s' =>
      match rstrip s' with
      | EmptyString => if is_space c then EmptyString else String c EmptyString
      | r => String c r
      end
  end.

(** [s.strip()], for the ASCII white space. *)
Definition strip (s : string) : string := rstrip (lstrip s).

(** ** Dictionaries with literal contents *)

Section Dict.
Context {Key V : Type} (key_eqb : Key -> Key -> bool).

Fixpoint dict_get (d : list (Key * V)) (k : Key) : option V :=
  match d with
  | [] => None
  | (k', v) :: d' => if key_eqb k k' then Some v else dict_get d' k
  end.

(** [k in d] *)
Definition dict_contains (d : list (Key * V)) (k : Key) : bool :=
  match dict_get d k with Some _ => true | None => false end.

(** [d[k] = v] *)
Fixpoint dict_set (d : list (Key * V)) (k : Key) (v : V) : list (Key * V) :=
  match d with
  | [] => [(k, v)]
  | (k', v') :: d' =>
      if key_eqb k k' then (k, v) :: d' else (k', v') :: dict_set d' k v
  end.
End Dict.

(** ** ElementTree elements *)

#[warnings="-register-all"]
Inductive element : Type :=
  Element (tag : string) (attrib : list (string * pyval))
          (elem_text : option string) (children : list element).

Definition tag (e : element) : string :=
  let 'Element t _ _ _ := e in t.
Definition attrib (e : element) : list (string * pyval) :=
  let 'Element _ a _ _ := e in a.
Definition elem_text (e : element) : option string :=
  let 'Element _ _ x _ := e in x.
Definition children (e : element) : list element :=
  let 'Element _ _ _ c := e in c.

(** [ElementTree.Element(tag)] *)
Definition new_element (t : string) : element := Element t [] None [].

(** [element.get(key)]: the attribute value, [None] when absent. *)
Definition elem_get (e : element) (key : string) : pyval :=
  match dict_get String.eqb (attrib e) key with
  | Some v => v
  | None => PyNone
  end.

(** [element.set(key, value)] *)
Definition elem_set (e : element) (key : string) (v : pyval) : element :=
  Element (tag e) (dict_set String.eqb (attrib e) key v)
          (elem_text e) (children e).

(** [element.append(child)] *)
Definition elem_append (e child : element) : element :=
  Element (tag e) (attrib e) (elem_text e) (children e ++ [child]).

(** [copy.deepcopy] of an element: the tree is rebuilt node by node. *)
Fixpoint deepcopy (e : element) : element :=
  let 'Element t a x c := e in
  Element t a x (map deepcopy c).

(** ** Constants imported from [pyxmpp.constants]

    The values live in another module of the package, so the imported
    names are parameters of the development.  ([STREAM_NS] and
    [PYXMPP_ERROR_NS] are imported but never read.) *)
Record constants : Type := {
  STREAM_NS : string;
  PYXMPP_ERROR_NS : string;
  STANZA_ERROR_NS : string;
  STREAM_ERROR_NS : string;
  STREAM_QNP : string;
  STANZA_ERROR_QNP : string;
  STREAM_ERROR_QNP : string;
  STANZA_CLIENT_QNP : string;
  STANZA_NAMESPACES : list string
}.

(** The literals of this module ([UNDEFINED_STREAM_CONDITION],
    [OBSOLETE_CONDITIONS], [LEGACY_CODES]) spell the two error namespaces
    out; the imported constants agree with them when they hold the RFC 6120
    values and a qualified-name prefix is the namespace in braces. *)
Definition rfc_error_namespaces (K : constants) : Prop :=
  STREAM_ERROR_NS K = "urn:ietf:params:xml:ns:xmpp-streams" /\
  STANZA_ERROR_NS K = "urn:ietf:params:xml:ns:xmpp-stanzas" /\
  STREAM_ERROR_QNP K = "{urn:ietf:params:xml:ns:xmpp-streams}" /\
  STANZA_ERROR_QNP K = "{urn:ietf:params:xml:ns:xmpp-stanzas}".

(** The values of RFC 6120, used for the concrete examples. *)
Definition xmpp_constants : constants := {|
  STREAM_NS := "http://etherx.jabber.org/streams";
  PYXMPP_ERROR_NS := "http://pyxmpp.jajcus.net/xmlns/errors";
  STANZA_ERROR_NS := "urn:ietf:params:xml:ns:xmpp-stanzas";
  STREAM_ERROR_NS := "urn:ietf:params:xml:ns:xmpp-streams";
  STREAM_QNP := "{http://etherx.jabber.org/streams}";
  STANZA_ERROR_QNP := "{urn:ietf:params:xml:ns:xmpp-stanzas}";
  STREAM_ERROR_QNP := "{urn:ietf:params:xml:ns:xmpp-streams}";
  STANZA_CLIENT_QNP := "{jabber:client}";
  STANZA_NAMESPACES := ["jabber:client"; "jabber:server"]
|}.

(** ** Module-level tables *)

Definition STREAM_ERRORS : list (string * string) :=
  [ ("bad-format", "Received XML cannot be processed");
    ("bad-namespace-prefix", "Bad namespace prefix");
    ("conflict", "Closing stream because of conflicting stream being opened");
    ("connection-timeout", "Connection was idle too long");
    ("host-gone", "Hostname is no longer hosted on the server");
    ("host-unknown", "Hostname requested is not known to the server");
    ("improper-addressing", "Improper addressing");
    ("internal-server-error", "Internal server error");
    ("invalid-from", "Invalid sender address");
    ("invalid-namespace", "Invalid namespace");
    ("invalid-xml", "Invalid XML");
    ("not-authorized", "Not authorized");
    ("not-well-formed", "XML sent by client is not well formed");
    ("policy-violation", "Local policy violation");
    ("remote-connection-failed", "Remote connection failed");
    ("reset", "Stream reset");
    ("resource-constraint", "Remote connection failed");
    ("restricted-xml", "Restricted XML received");
    ("see-other-host", "Redirection required");
    ("system-shutdown", "The server is being shut down");
    ("undefined-condition", "Unknown error");
    ("unsupported-encoding", "Unsupported encoding");
    ("unsupported-feature", "Unsupported feature");
    ("unsupported-stanza-type", "Unsupported stanza type");
    ("unsupported-version", "Unsupported protocol version") ].

Definition UNDEFINED_STREAM_CONDITION : string :=
  "{urn:ietf:params:xml:ns:xmpp-streams}undefined-condition".
Definition UNDEFINED_STANZA_CONDITION : string :=
  "{urn:ietf:params:xml:ns:xmpp-stanzas}undefined-condition".

(** Entries are (message, default error type, default legacy code). *)
Definition STANZA_ERRORS : list (string * (string * string * Z)) :=
  [ ("bad-request", ("Bad request", "modify", 400%Z));
    ("conflict", ("Named session or resource already exists", "cancel", 409%Z));
    ("feature-not-implemented",
       ("Feature requested is not implemented", "cancel", 501%Z));
    ("forbidden",
       ("You are forbidden to perform requested action", "auth", 403%Z));
    ("gone",
       ("Recipient or server can no longer be contacted at this address",
        "modify", 302%Z));
    ("internal-server-error", ("Internal server error", "wait", 500%Z));
    ("item-not-found", ("Item not found", "cancel", 404%Z));
    ("jid-malformed", ("JID malformed", "modify", 400%Z));
    ("not-acceptable", ("Requested action is not acceptable", "modify", 406%Z));
    ("not-allowed", ("Requested action is not allowed", "cancel", 405%Z));
    ("not-authorized", ("Not authorized", "auth", 401%Z));
    ("policy-violation", ("Policy violation", "cancel", 405%Z));
    ("recipient-unavailable", ("Recipient is not available", "wait", 404%Z));
    ("redirect", ("Redirection", "modify", 302%Z));
    ("registration-required", ("Registration required", "auth", 407%Z));
    ("remote-server-not-found", ("Remote server not found", "cancel", 404%Z));
    ("remote-server-timeout", ("Remote server timeout", "wait", 504%Z));
    ("resource-constraint", ("Resource constraint", "wait", 500%Z));
    ("service-unavailable", ("Service is not available", "cancel", 503%Z));
    ("subscription-required", ("Subscription is required", "auth", 407%Z));
    ("undefined-condition", ("Unknown error", "cancel", 500%Z));
    ("unexpected-request", ("Unexpected request", "wait", 400%Z)) ].

(** ["{{{0}}}{1}".format(ns, name)] *)
Definition qualify (ns name : string) : string := "{" ++ ns ++ "}" ++ name.

Definition OBSOLETE_CONDITIONS : list (string * string) :=
  [ ("{urn:ietf:params:xml:ns:xmpp-streams}xml-not-well-formed",
     "{urn:ietf:params:xml:ns:xmpp-streams}not-well-formed");
    ("{urn:ietf:params:xml:ns:xmpp-streams}invalid-id",
     UNDEFINED_STREAM_CONDITION);
    ("{urn:ietf:params:xml:ns:xmpp-stanzas}payment-required",
     UNDEFINED_STANZA_CONDITION) ].

(** The keys of [LEGACY_CODES] are Python ints. *)
Definition LEGACY_CODES : list (pyval * string) :=
  [ (PyInt 302, "{urn:ietf:params:xml:ns:xmpp-stanzas}redirect");
    (PyInt 400, "{urn:ietf:params:xml:ns:xmpp-stanzas}bad-request");
    (PyInt 401, "{urn:ietf:params:xml:ns:xmpp-stanzas}not-authorized");
    (PyInt 402, "{urn:ietf:params:xml:ns:xmpp-stanzas}payment-required");
    (PyInt 403, "{urn:ietf:params:xml:ns:xmpp-stanzas}forbidden");
    (PyInt 404, "{urn:ietf:params:xml:ns:xmpp-stanzas}item-not-found");
    (PyInt 405, "{urn:ietf:params:xml:ns:xmpp-stanzas}not-allowed");
    (PyInt 406, "{urn:ietf:params:xml:ns:xmpp-stanzas}not-acceptable");
    (PyInt 407, "{urn:ietf:params:xml:ns:xmpp-stanzas}registration-required");
    (PyInt 408, "{urn:ietf:params:xml:ns:xmpp-stanzas}remote-server-timeout");
    (PyInt 409, "{urn:ietf:params:xml:ns:xmpp-stanzas}conflict");
    (PyInt 500, "{urn:ietf:params:xml:ns:xmpp-stanzas}internal-server-error");
    (PyInt 501, "{urn:ietf:params:xml:ns:xmpp-stanzas}feature-not-implemented");
    (PyInt 502, "{urn:ietf:params:xml:ns:xmpp-stanzas}service-unavailable");
    (PyInt 503, "{urn:ietf:params:xml:ns:xmpp-stanzas}service-unavailable");
    (PyInt 504, "{urn:ietf:params:xml:ns:xmpp-stanzas}remote-server-timeout");
    (PyInt 510, "{urn:ietf:params:xml:ns:xmpp-stanzas}service-unavailable") ].

Definition STREAM_ERRORS_Q (K : constants) : list (string * string) :=
  map (fun x => (qualify (STREAM_ERROR_NS K) (fst x), snd x)) STREAM_ERRORS.

Definition STANZA_ERRORS_Q (K : constants)
  : list (string * (string * string * Z)) :=
  map (fun x => (qualify (STANZA_ERROR_NS K) (fst x), snd x)) STANZA_ERRORS.

(** The string-valued names bound in the module namespace: the imported
    constants and the two literals defined above.  In particular
    [XML_LANG_QNAME], [STANZA_SERVER_QNP] and [condition] are not bound. *)
Definition module_globals (K : constants) : list (string * string) :=
  [ ("STREAM_NS", STREAM_NS K);
    ("STANZA_ERROR_NS", STANZA_ERROR_NS K);
    ("STREAM_ERROR_NS", STREAM_ERROR_NS K);
    ("STREAM_QNP", STREAM_QNP K);
    ("STANZA_ERROR_QNP", STANZA_ERROR_QNP K);
    ("STREAM_ERROR_QNP", STREAM_ERROR_QNP K);
    ("PYXMPP_ERROR_NS", PYXMPP_ERROR_NS K);
    ("STANZA_CLIENT_QNP", STANZA_CLIENT_QNP K);
    ("UNDEFINED_STREAM_CONDITION", UNDEFINED_STREAM_CONDITION);
    ("UNDEFINED_STANZA_CONDITION", UNDEFINED_STANZA_CONDITION) ].

(** Reading a global name at run time. *)
Definition global (K : constants) (name : string) : Py string :=
  match dict_get String.eqb (module_globals K) name with
  | Some v => ret v
  | None => raise (NameError name)
  end.

Fixpoint globals (K : constants) (names : list string) : Py (list string) :=
  match names with
  | [] => ret []
  | n :: ns => v <- global K n ;; vs <- globals K ns ;; ret (v :: vs)
  end.

(** ** Error objects *)

Inductive pyclass : Type :=
| ErrorElement_class
| StreamErrorElement_class
| StanzaErrorElement_class.

(** What [self.condition] can hold: an element, or (after the legacy-code
    assignment in [StanzaErrorElement._from_xml]) a plain string. *)
Inductive condition_value : Type :=
| CondElement (e : element)
| CondStr (s : string).

(** The instance attributes.  [own_error_qname] and [own_text_qname] are the
    instance attributes that [StanzaErrorElement.__init__] sets and that
    shadow the class attributes. *)
Record ErrorElement : Type := {
  class_of : pyclass;
  own_error_qname : option string;
  own_text_qname : option string;
  condition : option condition_value;
  text : list (pyval * string);
  custom_condition : list element;
  error_type : pyval;
  _legacy_code : pyval
}.

(** The instance as [__new__] leaves it. *)
Definition new_object (c : pyclass) : ErrorElement := {|
  class_of := c; own_error_qname := None; own_text_qname := None;
  condition := None; text := []; custom_condition := [];
  error_type := PyNone; _legacy_code := PyNone |}.

Definition set_own_qnames (self : ErrorElement) (eq tq : string) :=
  {| class_of := class_of self; own_error_qname := Some eq;
     own_text_qname := Some tq; condition := condition self;
     text := text self; custom_condition := custom_condition self;
     error_type := error_type self; _legacy_code := _legacy_code self |}.
Definition set_condition (self : ErrorElement) (c : option condition_value) :=
  {| class_of := class_of self; own_error_qname := own_error_qname self;
     own_text_qname := own_text_qname self; condition := c;
     text := text self; custom_condition := custom_condition self;
     error_type := error_type self; _legacy_code := _legacy_code self |}.
Definition set_text (self : ErrorElement) (t : list (pyval * string)) :=
  {| class_of := class_of self; own_error_qname := own_error_qname self;
     own_text_qname := own_text_qname self; condition := condition self;
     text := t; custom_condition := custom_condition self;
     error_type := error_type self; _legacy_code := _legacy_code self |}.
Definition set_custom_condition (self : ErrorElement) (c : list element) :=
  {| class_of := class_of self; own_error_qname := own_error_qname self;
     own_text_qname := own_text_qname self; condition := condition self;
     text := text self; custom_condition := c;
     error_type := error_type self; _legacy_code := _legacy_code self |}.
Definition set_error_type (self : ErrorElement) (v : pyval) :=
  {| class_of := class_of self; own_error_qname := own_error_qname self;
     own_text_qname := own_text_qname self; condition := condition self;
     text := text self; custom_condition := custom_condition self;
     error_type := v; _legacy_code := _legacy_code self |}.
Definition set_legacy_code (self : ErrorElement) (v : pyval) :=
  {| class_of := class_of self; own_error_qname := own_error_qname self;
     own_text_qname := own_text_qname self; condition := condition self;
     text := text self; custom_condition := custom_condition self;
     error_type := error_type self; _legacy_code := v |}.

(** [self.condition.tag] *)
Definition condition_tag (self : ErrorElement) : Py string :=
  match condition self with
  | Some (CondElement e) => ret (tag e)
  | Some (CondStr _) =>
      raise (AttributeError "'str' object has no attribute 'tag'")
  | None => raise (AttributeError "'NoneType' object has no attribute 'tag'")
  end.

(** The first argument of the constructors: a [unicode] string, a byte
    [str] (both are sequences of characters here), an element, or an
    object of another type. *)
Inductive pyarg : Type :=
| ArgUnicode (s : string)
| ArgStr (s : string)
| ArgElement (e : element)
| ArgOther.

Section Classes.
Variable K : constants.

(** *** Class attributes, with the instance attributes shadowing them *)

Definition class_error_qname (c : pyclass) : string :=
  match c with
  | ErrorElement_class => "{unknown}error"
  | StreamErrorElement_class => STREAM_QNP K ++ "error"
  | StanzaErrorElement_class => STANZA_CLIENT_QNP K ++ "error"
  end.

Definition class_text_qname (c : pyclass) : string :=
  match c with
  | ErrorElement_class => "{unknown}text"
  | StreamErrorElement_class => STREAM_QNP K ++ "text"
  | StanzaErrorElement_class => STANZA_CLIENT_QNP K ++ "text"
  end.

Definition cond_qname_prefix (self : ErrorElement) : string :=
  match class_of self with
  | ErrorElement_class => "{unknown}"
  | StreamErrorElement_class => STREAM_ERROR_QNP K
  | StanzaErrorElement_class => STANZA_ERROR_QNP K
  end.

Definition error_qname (self : ErrorElement) : string :=
  match own_error_qname self with
  | Some q => q
  | None => class_error_qname (class_of self)
  end.

Definition text_qname (self : ErrorElement) : string :=
  match own_text_qname self with
  | Some q => q
  | None => class_text_qname (class_of self)
  end.

(** *** [ErrorElement._from_xml] *)

(** The inner [for prefix in (...)] loop with its [break]; the result is
    the flag [bad]. *)
Fixpoint reserved_prefix_loop (child_tag : string) (prefixes : list string)
  : Py bool :=
  match prefixes with
  | [] => ret false
  | prefix :: rest =>
      if startswith child_tag prefix then
        logger_warning "Unexpected stream-namespaced element in error." ;;;
        ret true
      else reserved_prefix_loop child_tag rest
  end.

(** One iteration of [for child in element]. *)
Definition from_xml_child (self : ErrorElement) (child : element)
  : Py ErrorElement :=
  if startswith (tag child) (cond_qname_prefix self) then
    match condition self with
    | Some _ =>
        logger_warning "Multiple conditions in XMPP error node." ;;;
        ret self
    | None => ret (set_condition self (Some (CondElement (deepcopy child))))
    end
  else if String.eqb (tag child) (text_qname self) then
    XML_LANG_QNAME <- global K "XML_LANG_QNAME" ;;
    let lang := elem_get child XML_LANG_QNAME in
    match elem_text child with
    | None =>
        raise (AttributeError "'NoneType' object has no attribute 'strip'")
    | Some t =>
        let description := strip t in
        ret (set_text self (text self ++ [(lang, description)]))
    end
  else
    prefixes <- globals K ["STREAM_QNP"; "STANZA_CLIENT_QNP";
                           "STANZA_SERVER_QNP"; "STANZA_ERROR_QNP";
                           "STREAM_ERROR_QNP"] ;;
    bad <- reserved_prefix_loop (tag child) prefixes ;;
    if negb bad then
      ret (set_custom_condition self
             (custom_condition self ++ [deepcopy child]))
    else ret self.

Fixpoint from_xml_children (self : ErrorElement) (cs : list element)
  : Py ErrorElement :=
  match cs with
  | [] => ret self
  | child :: rest =>
      self' <- from_xml_child self child ;;
      from_xml_children self' rest
  end.

Definition ErrorElement_from_xml (self : ErrorElement) (e : element)
  : Py ErrorElement :=
  if negb (String.eqb (tag e) (error_qname self)) then
    raise (ValueError "element is not an error element of this class")
  else
    let self := set_condition self None in
    self <- from_xml_children self (children e) ;;
    let self :=
      match condition self with
      | None =>
          set_condition self
            (Some (CondElement
                     (new_element
                        (cond_qname_prefix self ++ "undefined-condition"))))
      | Some _ => self
      end in
    t <- condition_tag self ;;
    if dict_contains String.eqb OBSOLETE_CONDITIONS t then
      (* new_cond_name = OBSOLETE_CONDITIONS[condition.tag]: the name
         [condition] is read as a global *)
      condition_tag_read <- global K "condition" ;;
      match dict_get String.eqb OBSOLETE_CONDITIONS condition_tag_read with
      | Some new_cond_name => ret self
      | None => raise (KeyError (PyStr condition_tag_read))
      end
    else ret self.

(** *** [StanzaErrorElement._from_xml] *)

Definition StanzaErrorElement_from_xml (self : ErrorElement) (e : element)
  : Py ErrorElement :=
  self <- ErrorElement_from_xml self e ;;
  let error_type := elem_get e "type" in
  let self := if truthy error_type then set_error_type self error_type
              else self in
  let legacy_code := elem_get e "code" in
  if truthy legacy_code then
    let self := set_legacy_code self legacy_code in
    t <- condition_tag self ;;
    if String.eqb t UNDEFINED_STANZA_CONDITION
       && dict_contains pyval_eqb LEGACY_CODES legacy_code then
      match dict_get pyval_eqb LEGACY_CODES legacy_code with
      | Some c => ret (set_condition self (Some (CondStr c)))
      | None => raise (KeyError legacy_code)
      end
    else ret self
  else ret self.

(** [self._from_xml(element)]: the method of the object's class. *)
Definition _from_xml (self : ErrorElement) (e : element) : Py ErrorElement :=
  match class_of self with
  | StanzaErrorElement_class => StanzaErrorElement_from_xml self e
  | _ => ErrorElement_from_xml self e
  end.

(** *** [ErrorElement.__init__] *)

Definition ErrorElement_init (self : ErrorElement) (element_or_cond : pyarg)
  (description lang : pyval) : Py ErrorElement :=
  let self := set_text self [] in
  let self := set_custom_condition self [] in
  self <-
    match element_or_cond with
    | ArgUnicode s | ArgStr s =>
        ret (set_condition self
               (Some (CondElement (new_element (cond_qname_prefix self ++ s)))))
    | ArgOther => raise (TypeError "Element or unicode string expected")
    | ArgElement e => _from_xml self e
    end ;;
  if truthy description then
    let self :=
      set_text self
        (filter (fun t => negb (pyval_eqb (fst t) lang)) (text self)) in
    (* self.text.append(lang, description) *)
    raise (TypeError "append() takes exactly one argument (2 given)")
  else ret self.

(** *** [StreamErrorElement.__init__] *)

Definition StreamErrorElement_init (self : ErrorElement)
  (element_or_cond : pyarg) (description lang : pyval) : Py ErrorElement :=
  match element_or_cond with
  | ArgUnicode s =>
      if negb (dict_contains String.eqb STREAM_ERRORS s) then
        raise (ValueError "Bad error condition")
      else ret tt
  | _ => ret tt
  end ;;;
  ErrorElement_init self element_or_cond description lang.

(** *** [StanzaErrorElement.__init__] *)

Definition StanzaErrorElement_init (self : ErrorElement)
  (element_or_cond : pyarg) (description lang error_type_arg : pyval)
  : Py ErrorElement :=
  let self := set_error_type self PyNone in
  let self := set_legacy_code self PyNone in
  self <-
    match element_or_cond with
    | ArgUnicode s | ArgStr s =>
        if negb (dict_contains String.eqb STANZA_ERRORS s) then
          raise (ValueError "Bad error condition")
        else ret self
    | ArgElement e =>
        if startswith (tag e) "{" then
          let namespace := fst (split1 "}"%char (drop_first (tag e))) in
          if negb (existsb (String.eqb namespace) (STANZA_NAMESPACES K)) then
            raise (ValueError "Bad error namespace")
          else
            ret (set_own_qnames self (qualify namespace "error")
                                     (qualify namespace "text"))
        else raise (ValueError "Bad error namespace - no namespace")
    | ArgOther => raise (AttributeError "object has no attribute 'tag'")
    end ;;
  self <- ErrorElement_init self element_or_cond description lang ;;
  let self :=
    match error_type_arg with
    | PyNone => self
    | _ => set_error_type self error_type_arg
    end in
  t <- condition_tag self ;;
  let cond := if dict_contains String.eqb (STANZA_ERRORS_Q K) t then t
              else UNDEFINED_STANZA_CONDITION in
  self <-
    (if negb (truthy (error_type self)) then
       match dict_get String.eqb (STANZA_ERRORS_Q K) cond with
       | Some (_, ty, _) => ret (set_error_type self (PyStr ty))
       | None => raise (KeyError (PyStr cond))
       end
     else ret self) ;;
  if negb (truthy (_legacy_code self)) then
    match dict_get String.eqb (STANZA_ERRORS_Q K) cond with
    | Some (_, _, code) => ret (set_legacy_code self (PyInt code))
    | None => raise (KeyError (PyStr cond))
    end
  else ret self.

(** *** Constructor calls: [Class(args)] *)

Definition ErrorElement_new (element_or_cond : pyarg)
  (description lang : pyval) : Py ErrorElement :=
  ErrorElement_init (new_object ErrorElement_class)
    element_or_cond description lang.

Definition StreamErrorElement_new (element_or_cond : pyarg)
  (description lang : pyval) : Py ErrorElement :=
  StreamErrorElement_init (new_object StreamErrorElement_class)
    element_or_cond description lang.

Definition StanzaErrorElement_new (element_or_cond : pyarg)
  (description lang error_type_arg : pyval) : Py ErrorElement :=
  StanzaErrorElement_init (new_object StanzaErrorElement_class)
    element_or_cond description lang error_type_arg.

(** *** Accessors *)

(** The [condition_name] property. *)
Definition condition_name (self : ErrorElement) : Py string :=
  t <- condition_tag self ;;
  match snd (split1 "}"%char t) with
  | Some name => ret name
  | None => raise (IndexError "list index out of range")
  end.

(** The [for t_lang, t_descr in self.text] loop of [get_description]. *)
Fixpoint first_in_language (entries : list (pyval * string)) (lang : pyval)
  : option (pyval * string) :=
  match entries with
  | [] => None
  | (t_lang, t_descr) :: rest =>
      if pyval_eqb t_lang lang then Some (t_lang, t_descr)
      else first_in_language rest lang
  end.

Definition get_description (self : ErrorElement) (lang : pyval)
  : pyval * pyval :=
  match text self with
  | [] => (PyNone, PyNone)
  | first :: _ =>
      match first_in_language (text self) lang with
      | Some (t_lang, t_descr) => (t_lang, PyStr t_descr)
      | None => (fst first, PyStr (snd first))
      end
  end.

Definition add_custom_condition (self : ErrorElement) (e : element)
  : ErrorElement :=
  set_custom_condition self (custom_condition self ++ [e]).

Definition StreamErrorElement_get_message (self : ErrorElement)
  : Py (option string) :=
  cond <- condition_name self ;;
  ret (dict_get String.eqb STREAM_ERRORS cond).

Definition StanzaErrorElement_get_message (self : ErrorElement)
  : Py (option string) :=
  cond <- condition_name self ;;
  ret (option_map (fun x => fst (fst x))
         (dict_get String.eqb STANZA_ERRORS cond)).

(** *** [ErrorElement.as_xml] *)

(** The [for lang, description in self.text] loop. *)
Fixpoint as_xml_text_loop (self : ErrorElement) (result : element)
  (entries : list (pyval * string)) : Py element :=
  match entries with
  | [] => ret result
  | (lang, description) :: rest =>
      XML_LANG_QNAME <- global K "XML_LANG_QNAME" ;;
      let text_child :=
        Element (text_qname self) [(XML_LANG_QNAME, lang)]
                (Some description) [] in
      as_xml_text_loop self (elem_append result text_child) rest
  end.

Definition ErrorElement_as_xml (self : ErrorElement) : Py element :=
  let result := new_element (error_qname self) in
  match condition self with
  | Some (CondElement c) =>
      let result := elem_append result (deepcopy c) in
      as_xml_text_loop self result (text self)
  | _ =>
      (* Outside the model: Python 2's [Element.append] takes any object,
         so the method would go on with a child that is not an element,
         which the element trees used here cannot hold.  No constructor
         returns an object whose condition is not an element (see
         [constructed_condition_is_element]); the statements about
         [as_xml] below assume an element condition or a constructed
         object, or compare two encodings of the same object. *)
      raise (TypeError "condition is not an Element")
  end.

(** *** [StanzaErrorElement.as_xml] *)

Definition StanzaErrorElement_as_xml (self : ErrorElement) (legacy : bool)
  : Py element :=
  result <- ErrorElement_as_xml self ;;
  let result := elem_set result "type" (error_type self) in
  if legacy then
    let code := _legacy_code self in
    code <-
      (if negb (truthy code) then
         t <- condition_tag self ;;
         match dict_get String.eqb (STANZA_ERRORS_Q K) t with
         | Some (_, _, c) => ret (PyInt c)
         | None => raise (KeyError (PyStr t))
         end
       else ret code) ;;
    ret (elem_set result "code" (_legacy_code self))
  else ret result.


End Classes.

Arguments error_qname K self : simpl never.
Arguments text_qname K self : simpl never.

(** ** Vocabulary for the statements below *)

Section Vocabulary.
Variable K : constants.

(** A child that the loop takes for a condition candidate. *)
Definition is_condition_child (self : ErrorElement) (child : element) : bool :=
  startswith (tag child) (cond_qname_prefix K self).

(** A child that the loop takes for a text element. *)
Definition is_text_child (self : ErrorElement) (child : element) : bool :=
  negb (is_condition_child self child)
  && String.eqb (tag child) (text_qname K self).

Definition multiple_conditions_warning : string :=
  "Multiple conditions in XMPP error node.".

(** The loop only ever changes [condition], [text] and
    [custom_condition]. *)
Definition same_class (a b : ErrorElement) : Prop :=
  class_of a = class_of b /\
  own_error_qname a = own_error_qname b /\
  own_text_qname a = own_text_qname b /\
  error_type a = error_type b /\
  _legacy_code a = _legacy_code b.

(** The condition that decoding identifies when every child is a
    condition candidate: the first child, or a synthesized
    [undefined-condition]. *)
Definition identified_condition (self : ErrorElement) (e : element)
  : element :=
  match children e with
  | c :: _ => c
  | [] => new_element (cond_qname_prefix K self ++ "undefined-condition")
  end.

End Vocabulary.

(** [c in s] for a character. *)
Fixpoint has_char (c : ascii) (s : string) : bool :=
  match s with
  | EmptyString => false
  | String c' s' => Ascii.eqb c' c || has_char c s'
  end.

(** The client dialect is sanctioned: [STANZA_CLIENT_QNP] is the
    namespace [ns] in braces and [ns] is one of [STANZA_NAMESPACES]. *)
Definition sanctioned_client_dialect (K : constants) (ns : string) : Prop :=
  STANZA_CLIENT_QNP K = ("{" ++ ns ++ "}")%string /\
  In ns (STANZA_NAMESPACES K) /\
  has_char "}"%char ns = false.

(** The condition of an error object is an element. *)
Definition has_condition_element (self : ErrorElement) : Prop :=
  exists c, condition self = Some (CondElement c).

(** The exception of [self.text.append(lang, description)]. *)
Definition append_TypeError : exn :=
  TypeError "append() takes exactly one argument (2 given)".

(** * Object identity

    Element objects live in a store and are referred to by address; a
    child object is owned by its parent and is reached through it.  An
    error object keeps references to Element objects for its condition
    and its custom conditions; its text entries are tuples of immutable
    values. *)
Module Ownership.

Definition address := nat.
Definition store := list element.

Definition load (st : store) (a : address) : option element := nth_error st a.

(** A new object: the next free address. *)
Definition alloc (st : store) (e : element) : address * store :=
  (length st, st ++ [e]).

(** An in-place change of the object at [a]: of its tag, attributes or
    text, or of any of its descendants. *)
Fixpoint mutate (st : store) (a : address) (f : element -> element) : store :=
  match st, a with
  | [], _ => []
  | e :: st', O => f e :: st'
  | e :: st', S a' => e :: mutate st' a' f
  end.

Fixpoint alloc_all (st : store) (es : list element) : list address * store :=
  match es with
  | [] => ([], st)
  | e :: es' =>
      let '(a, st1) := alloc st e in
      let '(rest, st2) := alloc_all st1 es' in
      (a :: rest, st2)
  end.

(** The error object with its references.  [attributes] carries the
    attributes that hold no element (class, names, text entries, error type
    and legacy code). *)
Record ErrorObject : Type := {
  attributes : ErrorElement;
  condition_ref : option (address + string);
  custom_condition_refs : list address
}.

Fixpoint load_all (st : store) (refs : list address) : option (list element) :=
  match refs with
  | [] => Some []
  | a :: rest =>
      match load st a, load_all st rest with
      | Some e, Some es => Some (e :: es)
      | _, _ => None
      end
  end.

(** The error object as its attribute values, read through the store. *)
Definition view (st : store) (o : ErrorObject) : option ErrorElement :=
  let cond :=
    match condition_ref o with
    | None => Some None
    | Some (inr s) => Some (Some (CondStr s))
    | Some (inl a) => option_map (fun e => Some (CondElement e)) (load st a)
    end in
  match cond, load_all st (custom_condition_refs o) with
  | Some c, Some cs =>
      Some (set_custom_condition (set_condition (attributes o) c) cs)
  | _, _ => None
  end.

(** What [__init__] and [_from_xml] leave in [self]: every element they
    store is the result of [deepcopy(child)] or of [ElementTree.Element(...)],
    that is, a new object. *)
Definition retain (st : store) (self : ErrorElement) : ErrorObject * store :=
  let '(c, st1) :=
    match condition self with
    | Some (CondElement e) =>
        let '(a, st1) := alloc st e in (Some (inl a), st1)
    | Some (CondStr s) => (Some (inr s), st)
    | None => (None, st)
    end in
  let '(cs, st2) := alloc_all st1 (custom_condition self) in
  ({| attributes := self; condition_ref := c; custom_condition_refs := cs |},
   st2).

(** The first argument of a constructor, with elements passed by
    reference. *)
Inductive objarg : Type :=
| RefUnicode (s : string)
| RefStr (s : string)
| RefElement (a : address)
| RefOther.

Definition resolve (st : store) (arg : objarg) : option pyarg :=
  match arg with
  | RefUnicode s => Some (ArgUnicode s)
  | RefStr s => Some (ArgStr s)
  | RefElement a => option_map ArgElement (load st a)
  | RefOther => Some ArgOther
  end.

(** A constructor call in the store; [None] only for an address that holds
    no object. *)
Definition construct (ctor : pyarg -> Py ErrorElement) (st : store)
  (arg : objarg) (l : log) : option (outcome (ErrorObject * store) * log) :=
  match resolve st arg with
  | None => None
  | Some a =>
      Some (match ctor a l with
            | (Returns self, l') => (Returns (retain st self), l')
            | (Raises e, l') => (Raises e, l')
            end)
  end.

(** [add_custom_condition]: [self.custom_condition.append(element)] stores
    the reference it is given. *)
Definition add_custom_condition (o : ErrorObject) (element_ref : address)
  : ErrorObject :=
  {| attributes := attributes o;
     condition_ref := condition_ref o;
     custom_condition_refs := custom_condition_refs o ++ [element_ref] |}.

(** The addresses that an error object refers to. *)
Definition refs (o : ErrorObject) : list address :=
  match condition_ref o with
  | Some (inl a) => [a]
  | _ => []
  end ++ custom_condition_refs o.

End Ownership.

(** * Properties *)

(** ** Basic facts *)

Lemma pyval_eqb_eq (a b : pyval) : pyval_eqb a b = true <-> a = b.
Proof.
  destruct a, b; simpl; split; intro H; try discriminate; try reflexivity.
  - apply String.eqb_eq in H. now subst.
  - inversion H. apply String.eqb_refl.
  - apply Z.eqb_eq in H. now subst.
  - inversion H. apply Z.eqb_refl.
Qed.

Lemma pyval_eqb_neq (a b : pyval) : pyval_eqb a b = false <-> a <> b.
Proof.
  split.
  - intros H E. apply pyval_eqb_eq in E. congruence.
  - intro H. destruct (pyval_eqb a b) eqn:E; [|reflexivity].
    apply pyval_eqb_eq in E. contradiction.
Qed.

Lemma startswith_app (p s : string) : startswith (p ++ s) p = true.
Proof.
  unfold startswith. induction p as [|c p IH]; simpl.
  - now destruct s.
  - destruct (ascii_dec c c) as [_|N]; [exact IH | now elim N].
Qed.

(** Structural induction on elements, through the list of children. *)
Lemma element_tree_ind (P : element -> Prop) :
  (forall t a x c, Forall P c -> P (Element t a x c)) ->
  forall e, P e.
Proof.
  intro H. fix IH 1. intros [t a x c]. apply H.
  induction c as [|e c IHc]; constructor; [apply IH | exact IHc].
Qed.

(** On element values a deep copy is the element itself. *)
Lemma deepcopy_value (e : element) : deepcopy e = e.
Proof.
  induction e as [t a x c IH] using element_tree_ind. simpl. f_equal.
  induction IH as [|e c He _ IHc]; simpl; [reflexivity|].
  now rewrite He, IHc.
Qed.

Lemma bind_returns {A B} (m : Py A) (k : A -> Py B) l a l' :
  m l = (Returns a, l') -> bind m k l = k a l'.
Proof. intro H. unfold bind. now rewrite H. Qed.

Lemma bind_raises {A B} (m : Py A) (k : A -> Py B) l e l' :
  m l = (Raises e, l') -> bind m k l = (Raises e, l').
Proof. intro H. unfold bind. now rewrite H. Qed.

(** The two names that [_from_xml] reads but the module never binds. *)
Lemma global_XML_LANG_QNAME K l :
  global K "XML_LANG_QNAME" l = (Raises (NameError "XML_LANG_QNAME"), l).
Proof. reflexivity. Qed.

Lemma global_condition K l :
  global K "condition" l = (Raises (NameError "condition"), l).
Proof. reflexivity. Qed.

Lemma globals_reserved_prefixes K l :
  globals K ["STREAM_QNP"; "STANZA_CLIENT_QNP"; "STANZA_SERVER_QNP";
             "STANZA_ERROR_QNP"; "STREAM_ERROR_QNP"] l
  = (Raises (NameError "STANZA_SERVER_QNP"), l).
Proof. reflexivity. Qed.

(** ** The child loop of [_from_xml] *)

Section ChildLoop.
Variable K : constants.


Lemma same_class_refl a : same_class a a.
Proof. repeat split. Qed.

Lemma same_class_trans a b c :
  same_class a b -> same_class b c -> same_class a c.
Proof.
  intros (?&?&?&?&?) (?&?&?&?&?). repeat split; congruence.
Qed.

Lemma same_class_sym a b : same_class a b -> same_class b a.
Proof. intros (?&?&?&?&?). repeat split; congruence. Qed.

Lemma same_class_cond_prefix a b :
  same_class a b -> cond_qname_prefix K a = cond_qname_prefix K b.
Proof. intros (H&_). unfold cond_qname_prefix. now rewrite H. Qed.

Lemma same_class_text_qname a b :
  same_class a b -> text_qname K a = text_qname K b.
Proof. intros (H1&_&H2&_). unfold text_qname. now rewrite H1, H2. Qed.

Lemma same_class_error_qname a b :
  same_class a b -> error_qname K a = error_qname K b.
Proof. intros (H1&H2&_). unfold error_qname. now rewrite H1, H2. Qed.

Lemma same_class_condition_children a b cs :
  same_class a b ->
  forallb (is_condition_child K a) cs = forallb (is_condition_child K b) cs.
Proof.
  intro H. unfold is_condition_child.
  rewrite (same_class_cond_prefix _ _ H). reflexivity.
Qed.

(** A condition candidate: kept when it is the first, logged and skipped
    otherwise. *)
Lemma from_xml_child_condition self child l :
  is_condition_child K self child = true ->
  from_xml_child K self child l =
    match condition self with
    | None => (Returns (set_condition self (Some (CondElement child))), l)
    | Some _ => (Returns self, l ++ [multiple_conditions_warning])
    end.
Proof.
  unfold is_condition_child, from_xml_child. intros ->.
  destruct (condition self); [reflexivity|]. now rewrite deepcopy_value.
Qed.

(** Any other child stops the decoding: both remaining branches read a
    name that is not bound. *)
Lemma from_xml_child_other self child l :
  is_condition_child K self child = false ->
  from_xml_child K self child l =
    (Raises (NameError (if is_text_child K self child
                        then "XML_LANG_QNAME" else "STANZA_SERVER_QNP")), l).
Proof.
  unfold is_text_child, is_condition_child, from_xml_child. intros ->.
  simpl. destruct (String.eqb (tag child) (text_qname K self)); reflexivity.
Qed.

Lemma from_xml_child_same_class self child l self' l' :
  from_xml_child K self child l = (Returns self', l') -> same_class self self'.
Proof.
  destruct (is_condition_child K self child) eqn:E.
  - rewrite (from_xml_child_condition _ _ _ E).
    destruct (condition self); intro H; inversion H; repeat split.
  - rewrite (from_xml_child_other _ _ _ E). discriminate.
Qed.

(** Once a condition is set, a run of condition candidates only adds
    warnings. *)
Lemma from_xml_children_duplicates self cs l c0 :
  condition self = Some c0 ->
  forallb (is_condition_child K self) cs = true ->
  from_xml_children K self cs l =
    (Returns self, l ++ repeat multiple_conditions_warning (length cs)).
Proof.
  intros Hc. revert l. induction cs as [|c cs IH]; intros l Hall; simpl.
  - now rewrite app_nil_r.
  - simpl in Hall. apply andb_true_iff in Hall as [H1 H2].
    erewrite bind_returns
      by (rewrite (from_xml_child_condition _ _ _ H1), Hc; reflexivity).
    rewrite (IH _ H2). now rewrite <- app_assoc.
Qed.

(** The whole loop on condition candidates only: the first is kept, each
    later one costs a warning. *)
Lemma from_xml_children_conditions self c cs l :
  condition self = None ->
  forallb (is_condition_child K self) (c :: cs) = true ->
  from_xml_children K self (c :: cs) l =
    (Returns (set_condition self (Some (CondElement c))),
     l ++ repeat multiple_conditions_warning (length cs)).
Proof.
  intros Hc Hall. simpl in Hall. apply andb_true_iff in Hall as [H1 H2].
  cbn [from_xml_children].
  erewrite bind_returns
    by (rewrite (from_xml_child_condition _ _ _ H1), Hc; reflexivity).
  apply from_xml_children_duplicates with (c0 := CondElement c);
    [reflexivity | exact H2].
Qed.

(** The loop raises as soon as a child is not a condition candidate. *)
Lemma from_xml_children_other self cs l :
  forallb (is_condition_child K self) cs = false ->
  exists name l',
    from_xml_children K self cs l = (Raises (NameError name), l') /\
    (name = "XML_LANG_QNAME" \/ name = "STANZA_SERVER_QNP").
Proof.
  revert self l. induction cs as [|c cs IH]; intros self l Hall;
    [discriminate|].
  cbn [from_xml_children]. simpl in Hall.
  destruct (is_condition_child K self c) eqn:E.
  - simpl in Hall.
    destruct (from_xml_child K self c l) as [[self'|e] l1] eqn:Hstep.
    + pose proof (from_xml_child_same_class _ _ _ _ _ Hstep) as Hs.
      rewrite (bind_returns _ _ _ _ _ Hstep).
      apply IH. rewrite <- Hall.
      apply same_class_condition_children, same_class_sym, Hs.
    + rewrite (from_xml_child_condition _ _ _ E) in Hstep.
      destruct (condition self); discriminate.
  - rewrite (bind_raises _ _ _ _ _ (from_xml_child_other _ _ _ E)).
    do 2 eexists. split; [reflexivity|].
    destruct (is_text_child K self c); auto.
Qed.

Lemma from_xml_children_app self pre rest l :
  from_xml_children K self (pre ++ rest) l =
  bind (from_xml_children K self pre)
       (fun self' => from_xml_children K self' rest) l.
Proof.
  revert self l. induction pre as [|c pre IH]; intros self l; simpl.
  - reflexivity.
  - unfold bind.
    destruct (from_xml_child K self c l) as [[self'|e] l1];
      [|reflexivity].
    rewrite IH. reflexivity.
Qed.

(** ** [ErrorElement._from_xml] as a whole *)

Lemma ErrorElement_from_xml_bad_tag self e l :
  tag e <> error_qname K self ->
  ErrorElement_from_xml K self e l =
    (Raises (ValueError "element is not an error element of this class"), l).
Proof.
  intro H. unfold ErrorElement_from_xml.
  apply String.eqb_neq in H. now rewrite H.
Qed.

Lemma ErrorElement_from_xml_conditions self e l :
  tag e = error_qname K self ->
  forallb (is_condition_child K self) (children e) = true ->
  ErrorElement_from_xml K self e l =
    let l' := l ++ repeat multiple_conditions_warning
                     (pred (length (children e))) in
    if dict_contains String.eqb OBSOLETE_CONDITIONS
         (tag (identified_condition K self e))
    then (Raises (NameError "condition"), l')
    else (Returns (set_condition self
                     (Some (CondElement (identified_condition K self e)))),
          l').
Proof.
  intros Ht Hall. unfold ErrorElement_from_xml, identified_condition.
  rewrite Ht, String.eqb_refl. cbn [negb].
  destruct (children e) as [|c cs] eqn:Hc.
  - cbn -[dict_contains OBSOLETE_CONDITIONS]. rewrite app_nil_r.
    unfold bind, condition_tag, ret. cbn -[dict_contains OBSOLETE_CONDITIONS].
    destruct (dict_contains _ _ _); reflexivity.
  - erewrite bind_returns; cycle 1.
    { apply from_xml_children_conditions; [reflexivity | exact Hall]. }
    cbn -[dict_contains OBSOLETE_CONDITIONS].
    unfold bind, condition_tag, ret. cbn -[dict_contains OBSOLETE_CONDITIONS].
    destruct (dict_contains _ _ _); reflexivity.
Qed.

Lemma ErrorElement_from_xml_other_child self e l :
  tag e = error_qname K self ->
  forallb (is_condition_child K self) (children e) = false ->
  exists name l',
    ErrorElement_from_xml K self e l = (Raises (NameError name), l') /\
    (name = "XML_LANG_QNAME" \/ name = "STANZA_SERVER_QNP").
Proof.
  intros Ht Hall. unfold ErrorElement_from_xml.
  rewrite Ht, String.eqb_refl. cbn [negb].
  destruct (from_xml_children_other (set_condition self None)
              (children e) l Hall) as (name & l' & Hr & Hn).
  exists name, l'. split; [|exact Hn].
  now rewrite (bind_raises _ _ _ _ _ Hr).
Qed.

(** Decoding returns exactly on the elements of the right name whose
    children are all condition candidates and whose identified condition
    is not an obsolete one; the result then differs from [self] only in
    its condition. *)
Lemma ErrorElement_from_xml_returns self e l self' l' :
  ErrorElement_from_xml K self e l = (Returns self', l') ->
  tag e = error_qname K self /\
  forallb (is_condition_child K self) (children e) = true /\
  dict_contains String.eqb OBSOLETE_CONDITIONS
    (tag (identified_condition K self e)) = false /\
  self' = set_condition self
            (Some (CondElement (identified_condition K self e))) /\
  l' = l ++ repeat multiple_conditions_warning
              (pred (length (children e))).
Proof.
  intro H.
  destruct (string_dec (tag e) (error_qname K self)) as [Ht|Ht].
  2:{ rewrite (ErrorElement_from_xml_bad_tag _ _ _ Ht) in H. discriminate. }
  destruct (forallb (is_condition_child K self) (children e)) eqn:Hall.
  2:{ destruct (ErrorElement_from_xml_other_child _ _ l Ht Hall)
        as (n & l1 & Hr & _). rewrite Hr in H. discriminate. }
  rewrite (ErrorElement_from_xml_conditions _ _ _ Ht Hall) in H.
  cbv zeta in H.
  destruct (dict_contains _ _ _) eqn:Hobs; [discriminate|].
  inversion H. subst. repeat split; auto.
Qed.

End ChildLoop.

(** ** Decoding through the constructors *)

Section Decoding.
Variable K : constants.

(** Decoding raises on an obsolete condition name instead of replacing
    it: this is what the last two lines of [_from_xml] do on every element
    of the right name whose children are condition candidates and whose
    first child bears a name of [OBSOLETE_CONDITIONS]. *)
Lemma from_xml_obsolete_condition_raises self e c rest l :
  tag e = error_qname K self ->
  children e = c :: rest ->
  forallb (is_condition_child K self) (c :: rest) = true ->
  dict_contains String.eqb OBSOLETE_CONDITIONS (tag c) = true ->
  ErrorElement_from_xml K self e l =
    (Raises (NameError "condition"),
     l ++ repeat multiple_conditions_warning (length rest)).
Proof.
  intros Ht Hc Hall Hobs.
  rewrite ErrorElement_from_xml_conditions by (rewrite ?Hc; assumption).
  unfold identified_condition. rewrite Hc. cbv zeta. now rewrite Hobs.
Qed.

(** A condition whose name is not in [OBSOLETE_CONDITIONS] is retained
    as it is. *)
Lemma from_xml_current_condition_unchanged self e c rest l :
  tag e = error_qname K self ->
  children e = c :: rest ->
  forallb (is_condition_child K self) (c :: rest) = true ->
  dict_contains String.eqb OBSOLETE_CONDITIONS (tag c) = false ->
  ErrorElement_from_xml K self e l =
    (Returns (set_condition self (Some (CondElement c))),
     l ++ repeat multiple_conditions_warning (length rest)).
Proof.
  intros Ht Hc Hall Hobs.
  rewrite ErrorElement_from_xml_conditions by (rewrite ?Hc; assumption).
  unfold identified_condition. rewrite Hc. cbv zeta. now rewrite Hobs.
Qed.

(** A text child makes decoding raise [NameError]: the language attribute
    is looked up under a name that is not bound. *)
Lemma from_xml_text_child_raises self e pre child post l :
  tag e = error_qname K self ->
  children e = pre ++ child :: post ->
  forallb (is_condition_child K self) pre = true ->
  is_text_child K self child = true ->
  exists l',
    ErrorElement_from_xml K self e l
    = (Raises (NameError "XML_LANG_QNAME"), l').
Proof.
  intros Ht Hc Hpre Htext. unfold ErrorElement_from_xml.
  rewrite Ht, String.eqb_refl, Hc. cbn [negb].
  set (self0 := set_condition self None).
  assert (Hs : same_class self self0) by (repeat split).
  assert (Hstep : forall s l1, same_class self s ->
            from_xml_children K s (child :: post) l1
            = (Raises (NameError "XML_LANG_QNAME"), l1)).
  { intros s l1 Hs1. cbn [from_xml_children].
    apply bind_raises.
    unfold is_text_child in Htext. apply andb_true_iff in Htext as [H1 H2].
    apply negb_true_iff in H1.
    rewrite from_xml_child_other.
    - unfold is_text_child, is_condition_child in *.
      rewrite <- (same_class_cond_prefix K _ _ Hs1),
              <- (same_class_text_qname K _ _ Hs1), H1, H2. reflexivity.
    - unfold is_condition_child in *.
      now rewrite <- (same_class_cond_prefix K _ _ Hs1). }
  rewrite (same_class_condition_children K _ _ pre Hs) in Hpre.
  destruct pre as [|c pre].
  - exists l. apply bind_raises. apply Hstep, Hs.
  - exists (l ++ repeat multiple_conditions_warning (length pre)).
    apply bind_raises. rewrite from_xml_children_app.
    erewrite bind_returns; cycle 1.
    { apply from_xml_children_conditions; [reflexivity | exact Hpre]. }
    apply Hstep. repeat split.
Qed.

(** Duplicate conditions by themselves are handled: when all children
    are condition candidates and the first does not bear an obsolete
    name, decoding returns, keeps the first child as the condition, logs
    one warning for each later one and keeps nothing else. *)
Lemma from_xml_duplicate_conditions self e c rest l :
  tag e = error_qname K self ->
  children e = c :: rest ->
  forallb (is_condition_child K self) (c :: rest) = true ->
  dict_contains String.eqb OBSOLETE_CONDITIONS (tag c) = false ->
  exists self',
    ErrorElement_from_xml K self e l =
      (Returns self',
       l ++ repeat multiple_conditions_warning (length rest)) /\
    condition self' = Some (CondElement c) /\
    text self' = text self /\
    custom_condition self' = custom_condition self.
Proof.
  intros Ht Hc Hall Hobs. eexists. split.
  - apply from_xml_current_condition_unchanged; eassumption.
  - repeat split.
Qed.

(** *** Stanza errors: the [type] and [code] attributes *)

(** No string is a key of [LEGACY_CODES]: its keys are ints. *)
Lemma LEGACY_CODES_no_string_key (s : string) :
  dict_contains pyval_eqb LEGACY_CODES (PyStr s) = false.
Proof. reflexivity. Qed.

Lemma LEGACY_CODES_no_None_key :
  dict_contains pyval_eqb LEGACY_CODES PyNone = false.
Proof. reflexivity. Qed.

(** With a [code] attribute that is a string, as every attribute read
    from the wire is, the condition that the shared decoding identified
    is never replaced. *)
Lemma stanza_from_xml_string_code self e s l self' l' :
  elem_get e "code" = PyStr s ->
  ErrorElement_from_xml K self e l = (Returns self', l') ->
  exists self'',
    StanzaErrorElement_from_xml K self e l = (Returns self'', l') /\
    condition self'' = condition self'.
Proof.
  intros Hcode Hbase. unfold StanzaErrorElement_from_xml.
  rewrite (bind_returns _ _ _ _ _ Hbase), Hcode.
  apply ErrorElement_from_xml_returns in Hbase as (_&_&_&->&_).
  rewrite LEGACY_CODES_no_string_key.
  destruct (truthy (PyStr s));
    destruct (truthy (elem_get e "type")); cbn; unfold bind, ret; cbn;
    rewrite ?andb_false_r; eexists; split; reflexivity.
Qed.

(** Whatever the [code] attribute holds, a condition other than
    [undefined-condition] is never replaced. *)
Lemma stanza_from_xml_keeps_recognized_condition self e l self' l' :
  ErrorElement_from_xml K self e l = (Returns self', l') ->
  tag (identified_condition K self e) <> UNDEFINED_STANZA_CONDITION ->
  exists self'',
    StanzaErrorElement_from_xml K self e l = (Returns self'', l') /\
    condition self'' = Some (CondElement (identified_condition K self e)).
Proof.
  intros Hbase Hne. unfold StanzaErrorElement_from_xml.
  rewrite (bind_returns _ _ _ _ _ Hbase).
  apply ErrorElement_from_xml_returns in Hbase as (_&_&_&->&_).
  apply String.eqb_neq in Hne.
  destruct (truthy (elem_get e "code"));
    destruct (truthy (elem_get e "type")); cbn; unfold bind, ret; cbn;
    rewrite ?Hne; cbn; eexists; split; reflexivity.
Qed.

End Decoding.

(** ** What the constructors return *)

Section Constructed.
Variable K : constants.

Lemma ErrorElement_init_condition self arg description lang l self' l' :
  class_of self <> StanzaErrorElement_class ->
  ErrorElement_init K self arg description lang l = (Returns self', l') ->
  has_condition_element self'.
Proof.
  intros Hcls. unfold ErrorElement_init, bind.
  match goal with |- context [match ?m l with _ => _ end] =>
    destruct (m l) as [[s|e] l1] eqn:E end; [|discriminate].
  destruct (truthy description); [discriminate|].
  intro H. inversion H. subst s l1. clear H.
  destruct arg as [n|n|e|].
  - inversion E. eexists. reflexivity.
  - inversion E. eexists. reflexivity.
  - unfold _from_xml in E. cbn [class_of set_custom_condition set_text] in E.
    destruct (class_of self) eqn:C; try congruence;
      apply ErrorElement_from_xml_returns in E as (_&_&_&->&_);
      eexists; reflexivity.
  - discriminate.
Qed.

(** Every error object that a constructor returns has an element as its
    condition. *)
Lemma constructed_condition_is_element arg description lang error_type_arg
  l self l' :
  ErrorElement_new K arg description lang l = (Returns self, l') \/
  StreamErrorElement_new K arg description lang l = (Returns self, l') \/
  StanzaErrorElement_new K arg description lang error_type_arg l
    = (Returns self, l') ->
  has_condition_element self.
Proof.
  intros [H|[H|H]].
  - eapply ErrorElement_init_condition; [|exact H]. discriminate.
  - unfold StreamErrorElement_new, StreamErrorElement_init, bind in H.
    match type of H with context [match ?m l with _ => _ end] =>
      destruct (m l) as [[u|e] l1] end; [|discriminate].
    eapply ErrorElement_init_condition; [|exact H]. discriminate.
  - unfold StanzaErrorElement_new, StanzaErrorElement_init, bind in H.
    match type of H with context [match ?m l with _ => _ end] =>
      destruct (m l) as [[s1|e] l1] end; [|discriminate].
    destruct (ErrorElement_init K s1 arg description lang l1)
      as [[s2|e] l2]; [|discriminate].
    unfold condition_tag in H.
    destruct error_type_arg;
      cbn [condition set_error_type] in H;
      destruct (condition s2) as [[c|c]|] eqn:Hc; try discriminate;
      unfold ret in H;
      repeat match type of H with
        | context [if ?b then _ else _] => destruct b
        | context [match dict_get ?e ?d ?k with _ => _ end] =>
            destruct (dict_get e d k) as [[[? ?] ?]|]
        | context [raise _ _] => unfold raise in H
        end;
      try discriminate; inversion H; subst; exists c; cbn; exact Hc.
Qed.

End Constructed.

(** ** Encoding *)

Lemma dict_get_set_same {V} (d : list (string * V)) k v :
  dict_get String.eqb (dict_set String.eqb d k v) k = Some v.
Proof.
  induction d as [|[k' v'] d IH]; simpl.
  - now rewrite String.eqb_refl.
  - destruct (String.eqb k k') eqn:E; simpl.
    + now rewrite String.eqb_refl.
    + now rewrite E.
Qed.

Lemma dict_get_set_other {V} (d : list (string * V)) k k' v :
  k <> k' ->
  dict_get String.eqb (dict_set String.eqb d k v) k' =
  dict_get String.eqb d k'.
Proof.
  intro Hne. induction d as [|[k0 v0] d IH]; simpl.
  - apply not_eq_sym, String.eqb_neq in Hne. now rewrite Hne.
  - destruct (String.eqb k k0) eqn:E; simpl.
    + apply String.eqb_eq in E. subst k0.
      apply not_eq_sym, String.eqb_neq in Hne. now rewrite Hne.
    + destruct (String.eqb k' k0); [reflexivity | exact IH].
Qed.

Lemma elem_get_set_same e k v : elem_get (elem_set e k v) k = v.
Proof. unfold elem_get, elem_set. simpl. now rewrite dict_get_set_same. Qed.

Lemma elem_get_set_other e k k' v :
  k <> k' -> elem_get (elem_set e k v) k' = elem_get e k'.
Proof.
  intro H. unfold elem_get, elem_set. simpl.
  now rewrite dict_get_set_other.
Qed.

Lemma dict_get_In {V} (d : list (string * V)) k v :
  dict_get String.eqb d k = Some v -> In (k, v) d.
Proof.
  induction d as [|[k' v'] d IH]; simpl; [discriminate|].
  destruct (String.eqb k k') eqn:E.
  - apply String.eqb_eq in E. intro H. inversion H. subst. now left.
  - intro H. right. now apply IH.
Qed.

Section Encoding.
Variable K : constants.

(** The first text entry stops the encoding: building the text child
    reads the unbound name [XML_LANG_QNAME]. *)
Lemma as_xml_text_loop_raises self result entry entries l :
  as_xml_text_loop K self result (entry :: entries) l =
    (Raises (NameError "XML_LANG_QNAME"), l).
Proof. destruct entry. reflexivity. Qed.

Lemma ErrorElement_as_xml_text_raises self c entry entries l :
  condition self = Some (CondElement c) ->
  text self = entry :: entries ->
  ErrorElement_as_xml K self l = (Raises (NameError "XML_LANG_QNAME"), l).
Proof.
  intros Hc Ht. unfold ErrorElement_as_xml. rewrite Hc, Ht.
  apply as_xml_text_loop_raises.
Qed.

(** Without text entries the encoding is the outer element with the
    condition as its only child, whatever the custom conditions are. *)
Lemma ErrorElement_as_xml_no_text self c l :
  condition self = Some (CondElement c) ->
  text self = [] ->
  ErrorElement_as_xml K self l =
    (Returns (Element (error_qname K self) [] None [c]), l).
Proof.
  intros Hc Ht. unfold ErrorElement_as_xml. rewrite Hc, Ht.
  cbn. now rewrite deepcopy_value.
Qed.

(** [as_xml] never reads [custom_condition]. *)
Lemma ErrorElement_as_xml_ignores_custom_conditions self cs l :
  ErrorElement_as_xml K (set_custom_condition self cs) l =
  ErrorElement_as_xml K self l.
Proof.
  unfold ErrorElement_as_xml. cbn.
  destruct (condition self) as [[c|s]|]; try reflexivity.
  destruct (text self) as [|[lang d] entries]; reflexivity.
Qed.

(** When the encoding of a stanza error returns, the [type] attribute of
    the result is the error type of the object. *)
Lemma StanzaErrorElement_as_xml_sets_type self legacy l el l' :
  StanzaErrorElement_as_xml K self legacy l = (Returns el, l') ->
  elem_get el "type" = error_type self.
Proof.
  unfold StanzaErrorElement_as_xml, bind.
  destruct (ErrorElement_as_xml K self l) as [[r|ex] l1]; [|discriminate].
  destruct legacy.
  - destruct (negb (truthy (_legacy_code self))).
    + destruct (condition_tag self l1) as [[t|ex] l2]; [|discriminate].
      destruct (dict_get String.eqb (STANZA_ERRORS_Q K) t) as [[[? ?] ?]|];
        [|discriminate].
      intro H. inversion H.
      rewrite elem_get_set_other by discriminate. apply elem_get_set_same.
    + intro H. inversion H.
      rewrite elem_get_set_other by discriminate. apply elem_get_set_same.
  - intro H. inversion H. apply elem_get_set_same.
Qed.

End Encoding.

(** ** [get_description] *)

Section Description.

Lemma first_in_language_none entries lang :
  Forall (fun t => fst t <> lang) entries ->
  first_in_language entries lang = None.
Proof.
  induction 1 as [|[tl td] entries Hx _ IH]; simpl; [reflexivity|].
  apply pyval_eqb_neq in Hx. simpl in Hx. now rewrite Hx.
Qed.

Lemma first_in_language_first before descr after lang :
  Forall (fun t => fst t <> lang) before ->
  first_in_language (before ++ (lang, descr) :: after) lang
  = Some (lang, descr).
Proof.
  induction 1 as [|[tl td] before Hx _ IH]; simpl.
  - now rewrite (proj2 (pyval_eqb_eq lang lang) eq_refl).
  - apply pyval_eqb_neq in Hx. simpl in Hx. now rewrite Hx.
Qed.

End Description.

(** ** The constructors and a description argument *)


Section DescriptionArgument.
Variable K : constants.

Lemma ErrorElement_init_description self arg description lang l :
  truthy description = true ->
  exists e l',
    ErrorElement_init K self arg description lang l = (Raises e, l') /\
    (forall self0 l0,
        ErrorElement_init K self arg PyNone lang l = (Returns self0, l0) ->
        e = append_TypeError).
Proof.
  intro Hd. unfold ErrorElement_init, bind. rewrite Hd. cbn [truthy].
  match goal with |- context [match ?m l with _ => _ end] =>
    destruct (m l) as [[s|e] l1] end.
  - do 2 eexists. split; [reflexivity|]. reflexivity.
  - do 2 eexists. split; [reflexivity|]. discriminate.
Qed.

(** With a non-empty description the base initialisation raises: the
    exception of [append] when the steps before it return, and the
    exception of those steps otherwise, with the same log. *)
Lemma ErrorElement_init_description_cases self arg description lang l :
  truthy description = true ->
  ErrorElement_init K self arg description lang l =
    match ErrorElement_init K self arg PyNone lang l with
    | (Returns _, l') => (Raises append_TypeError, l')
    | (Raises e, l') => (Raises e, l')
    end.
Proof.
  intro Hd. unfold ErrorElement_init, bind. rewrite Hd. cbn [truthy].
  match goal with |- context [match ?m l with _ => _ end] =>
    destruct (m l) as [[s|e] l1] end; reflexivity.
Qed.

End DescriptionArgument.


(** ** Round trip of the stream conditions *)

Section StreamRoundTrip.
Variable K : constants.

Lemma StreamErrorElement_new_element e l :
  StreamErrorElement_new K (ArgElement e) PyNone PyNone l =
  ErrorElement_from_xml K (new_object StreamErrorElement_class) e l.
Proof.
  unfold StreamErrorElement_new, StreamErrorElement_init, ErrorElement_init,
    _from_xml, bind, ret. cbn.
  destruct (ErrorElement_from_xml K _ e l) as [[s|ex] l1]; reflexivity.
Qed.

Lemma stream_roundtrip_general name l :
  dict_contains String.eqb STREAM_ERRORS name = true ->
  dict_contains String.eqb OBSOLETE_CONDITIONS
    (STREAM_ERROR_QNP K ++ name)%string = false ->
  let cond := new_element (STREAM_ERROR_QNP K ++ name) in
  let self := set_condition (new_object StreamErrorElement_class)
                (Some (CondElement cond)) in
  let el := Element (STREAM_QNP K ++ "error") [] None [cond] in
  StreamErrorElement_new K (ArgUnicode name) PyNone PyNone l = (Returns self, l)
  /\ ErrorElement_as_xml K self l = (Returns el, l)
  /\ StreamErrorElement_new K (ArgElement el) PyNone PyNone l
     = (Returns self, l).
Proof.
  intros Hin Hobs cond self el. split; [|split].
  - unfold StreamErrorElement_new, StreamErrorElement_init, bind.
    rewrite Hin. reflexivity.
  - apply ErrorElement_as_xml_no_text; reflexivity.
  - rewrite StreamErrorElement_new_element.
    rewrite (from_xml_current_condition_unchanged K _ el cond [] l);
      try reflexivity; try assumption.
    + cbn. now rewrite app_nil_r.
    + change (startswith (STREAM_ERROR_QNP K ++ name) (STREAM_ERROR_QNP K)
              && true = true).
      now rewrite startswith_app.
Qed.

End StreamRoundTrip.

(** ** Object identity: what an error object refers to *)

Module OwnershipFacts.
Import Ownership.

Lemma load_alloc st e : load (snd (alloc st e)) (fst (alloc st e)) = Some e.
Proof.
  unfold load, alloc. simpl.
  rewrite nth_error_app2 by lia. now rewrite Nat.sub_diag.
Qed.

Lemma load_extend st a e extra :
  load st a = Some e -> load (st ++ extra) a = Some e.
Proof.
  unfold load. intro H. rewrite nth_error_app1; [exact H|].
  apply nth_error_Some. congruence.
Qed.

Lemma load_mutate_other st a b f :
  a <> b -> load (mutate st a f) b = load st b.
Proof.
  unfold load. revert a b. induction st as [|e st IH]; intros a b Hne.
  - now destruct a.
  - destruct a, b; simpl; try reflexivity; try congruence.
    apply IH. congruence.
Qed.

Lemma load_mutate_same st a f :
  load (mutate st a f) a = option_map f (load st a).
Proof.
  unfold load. revert a. induction st as [|e st IH]; intro a.
  - now destruct a.
  - destruct a; simpl; [reflexivity | apply IH].
Qed.

Lemma load_all_mutate_other st a f refs :
  ~ In a refs -> load_all (mutate st a f) refs = load_all st refs.
Proof.
  induction refs as [|b refs IH]; intro Hn; simpl; [reflexivity|].
  rewrite load_mutate_other by (intro E; apply Hn; now left).
  rewrite IH by (intro E; apply Hn; now right). reflexivity.
Qed.

(** Changing an object that the error object does not refer to leaves
    the error object as it was. *)
Lemma view_mutate_frame st o a f :
  ~ In a (refs o) -> view (mutate st a f) o = view st o.
Proof.
  unfold view, refs. intro Hn.
  rewrite load_all_mutate_other
    by (intro E; apply Hn, in_or_app; now right).
  destruct (condition_ref o) as [[b|s]|]; try reflexivity.
  rewrite load_mutate_other; [reflexivity|].
  intro E. apply Hn, in_or_app. left. now left.
Qed.

Lemma alloc_all_spec es : forall st,
  let '(addrs, st') := alloc_all st es in
  (forall a, In a addrs -> length st <= a) /\
  (exists extra, st' = st ++ extra) /\
  load_all st' addrs = Some es.
Proof.
  induction es as [|e es IH]; intro st; simpl.
  - repeat split; [contradiction | now exists []; rewrite app_nil_r].
  - specialize (IH (st ++ [e])).
    destruct (alloc_all (st ++ [e]) es) as [rest st2].
    destruct IH as (Hfresh & (extra & ->) & Hload). repeat split.
    + intros a [<-|Ha]; [lia|].
      apply Hfresh in Ha. rewrite length_app in Ha. simpl in Ha. lia.
    + exists ([e] ++ extra). now rewrite app_assoc.
    + simpl.
      rewrite (load_extend (st ++ [e]) (length st) e extra (load_alloc st e)).
      now rewrite Hload.
Qed.

Lemma set_fields_same (self : ErrorElement) :
  set_custom_condition (set_condition self (condition self))
    (custom_condition self) = self.
Proof. now destruct self. Qed.

(** The object that a constructor leaves behind refers to new objects
    only, and read through the store it is the value that the constructor
    computed. *)
Lemma retain_spec st self :
  let '(o, st') := retain st self in
  (forall a, In a (refs o) -> length st <= a) /\
  view st' o = Some self.
Proof.
  unfold retain.
  destruct (condition self) as [[e|s]|] eqn:Hc.
  - cbn [alloc].
    pose proof (alloc_all_spec (custom_condition self) (st ++ [e])) as H.
    destruct (alloc_all (st ++ [e]) (custom_condition self)) as [cs st2].
    destruct H as (Hfresh & (extra & ->) & Hload). split.
    + unfold refs. cbn. intros a [<-|Ha]; [lia|].
      apply Hfresh in Ha. rewrite length_app in Ha. simpl in Ha. lia.
    + unfold view. cbn.
      rewrite (load_extend (st ++ [e]) (length st) e extra (load_alloc st e)).
      cbn. rewrite Hload, <- Hc. now rewrite set_fields_same.
  - pose proof (alloc_all_spec (custom_condition self) st) as H.
    destruct (alloc_all st (custom_condition self)) as [cs st2].
    destruct H as (Hfresh & _ & Hload). split.
    + unfold refs. cbn. exact Hfresh.
    + unfold view. cbn. rewrite Hload, <- Hc. now rewrite set_fields_same.
  - pose proof (alloc_all_spec (custom_condition self) st) as H.
    destruct (alloc_all st (custom_condition self)) as [cs st2].
    destruct H as (Hfresh & _ & Hload). split.
    + unfold refs. cbn. exact Hfresh.
    + unfold view. cbn. rewrite Hload, <- Hc. now rewrite set_fields_same.
Qed.

(** After a constructor call (from a name or by decoding an element), no
    change to an object that existed before the call shows in the error
    object. *)
Lemma construct_owns_its_elements ctor st arg l o st' l' a f :
  construct ctor st arg l = Some (Returns (o, st'), l') ->
  a < length st ->
  view (mutate st' a f) o = view st' o.
Proof.
  unfold construct. intros H Ha.
  destruct (resolve st arg) as [parg|]; [|discriminate].
  destruct (ctor parg l) as [[self|e] l1]; [|discriminate].
  pose proof (retain_spec st self) as Hr.
  destruct (retain st self) as [o1 st1]. inversion H. subst.
  destruct Hr as [Hfresh _].
  apply view_mutate_frame. intro Hin. apply Hfresh in Hin. lia.
Qed.

End OwnershipFacts.

(** * The claims *)

(** C5. For every condition name of the stream vocabulary, constructing a
    stream error from the name, encoding it and decoding the encoding all
    return without logging anything, and the decoded error has the same
    condition name and no text entry. *)
Theorem stream_condition_roundtrip (K : constants) (name : string) (l : log) :
  rfc_error_namespaces K ->
  In name (map fst STREAM_ERRORS) ->
  exists self el self',
    StreamErrorElement_new K (ArgUnicode name) PyNone PyNone l
      = (Returns self, l) /\
    ErrorElement_as_xml K self l = (Returns el, l) /\
    StreamErrorElement_new K (ArgElement el) PyNone PyNone l
      = (Returns self', l) /\
    condition_name self' l = (Returns name, l) /\
    text self' = [].
Proof.
  intros (_ & _ & Hqnp & _) Hin.
  assert (Hside :
    dict_contains String.eqb STREAM_ERRORS name = true /\
    dict_contains String.eqb OBSOLETE_CONDITIONS
      ("{urn:ietf:params:xml:ns:xmpp-streams}" ++ name)%string = false /\
    snd (split1 "}"%char ("{urn:ietf:params:xml:ns:xmpp-streams}" ++ name))
    = Some name).
  { unfold STREAM_ERRORS in Hin. cbn [map fst In] in Hin.
    repeat (destruct Hin as [Hin|Hin];
            [subst name; vm_compute; repeat split|]).
    contradiction. }
  destruct Hside as (H1 & H2 & H3). rewrite <- Hqnp in H2, H3.
  destruct (stream_roundtrip_general K name l H1 H2) as (Ha & Hb & Hc).
  do 3 eexists. repeat (split; [eassumption|]).
  split; [|reflexivity].
  unfold condition_name, bind, condition_tag. cbn [condition set_condition tag new_element].
  unfold ret. now rewrite H3.
Qed.

(** The round trip at the RFC 6120 constants, for [host-unknown]. *)
Lemma stream_condition_roundtrip_witness :
  exists self el self',
    StreamErrorElement_new xmpp_constants (ArgUnicode "host-unknown")
      PyNone PyNone [] = (Returns self, []) /\
    ErrorElement_as_xml xmpp_constants self [] = (Returns el, []) /\
    StreamErrorElement_new xmpp_constants (ArgElement el) PyNone PyNone []
      = (Returns self', []) /\
    condition_name self' [] = (Returns "host-unknown", []) /\
    text self' = [].
Proof.
  apply (stream_condition_roundtrip xmpp_constants "host-unknown" []).
  - repeat split.
  - vm_compute. tauto.
Defined.

(** C6. For every condition name of the stanza vocabulary, a stanza error
    constructed from the name alone has the error type that the registry
    gives for the condition (a non-empty value), and encoding it with
    [legacy = True] returns an element whose [code] attribute is the
    registry's numeric code for the condition and whose [type] attribute is
    that error type. *)
Theorem stanza_condition_defaults (K : constants) (name msg ty : string)
  (code : Z) (lang : pyval) (l : log) :
  rfc_error_namespaces K ->
  dict_get String.eqb STANZA_ERRORS name = Some (msg, ty, code) ->
  exists self el,
    StanzaErrorElement_new K (ArgUnicode name) PyNone lang PyNone l
      = (Returns self, l) /\
    error_type self = PyStr ty /\
    truthy (error_type self) = true /\
    StanzaErrorElement_as_xml K self true l = (Returns el, l) /\
    elem_get el "code" = PyInt code /\
    elem_get el "type" = PyStr ty.
Proof.
  intros (_ & Hns & _ & Hqnp) Hget.
  destruct K as [sns pns stanza_ns stream_ns sq stanza_qnp stream_qnp cq nss].
  cbn in Hns, Hqnp. subst stanza_ns stanza_qnp.
  apply dict_get_In in Hget. unfold STANZA_ERRORS in Hget.
  cbn [In] in Hget.
  repeat (destruct Hget as [Hget|Hget];
          [inversion Hget; subst name msg ty code; clear Hget;
           do 2 eexists; vm_compute; repeat split|]).
  contradiction.
Qed.

(** The defaults at the RFC 6120 constants, for [item-not-found]. *)
Lemma stanza_condition_defaults_witness :
  exists self el,
    StanzaErrorElement_new xmpp_constants (ArgUnicode "item-not-found")
      PyNone PyNone PyNone [] = (Returns self, []) /\
    error_type self = PyStr "cancel" /\
    truthy (error_type self) = true /\
    StanzaErrorElement_as_xml xmpp_constants self true [] = (Returns el, []) /\
    elem_get el "code" = PyInt 404 /\
    elem_get el "type" = PyStr "cancel".
Proof.
  apply (stanza_condition_defaults xmpp_constants "item-not-found"
           "Item not found" "cancel" 404 PyNone []).
  - repeat split.
  - reflexivity.
Defined.

(** C8. [get_description] returns the first text entry whose language
    equals the preferred one when there is one, otherwise the first text
    entry, and [(None, None)] when there is no text entry.  With the
    entries [(None, "Error"), ("fr", "Erreur")], asking for ["fr"] gives the
    French entry and asking for ["de"] gives [(None, "Error")]. *)
Theorem get_description_prefers_language (self : ErrorElement) (lang : pyval) :
  (forall before descr after,
      text self = before ++ (lang, descr) :: after ->
      Forall (fun t => fst t <> lang) before ->
      get_description self lang = (lang, PyStr descr)) /\
  (forall first rest,
      text self = first :: rest ->
      Forall (fun t => fst t <> lang) (first :: rest) ->
      get_description self lang = (fst first, PyStr (snd first))) /\
  (text self = [] -> get_description self lang = (PyNone, PyNone)) /\
  (forall other,
      text other = [(PyNone, "Error"); (PyStr "fr", "Erreur")] ->
      get_description other (PyStr "fr") = (PyStr "fr", PyStr "Erreur") /\
      get_description other (PyStr "de") = (PyNone, PyStr "Error")).
Proof.
  repeat split.
  - intros before descr after Ht Hb. unfold get_description. rewrite Ht.
    rewrite first_in_language_first by exact Hb.
    destruct before; reflexivity.
  - intros first rest Ht Hall. unfold get_description. rewrite Ht.
    now rewrite first_in_language_none by exact Hall.
  - intro Ht. unfold get_description. now rewrite Ht.
  - unfold get_description. rewrite H. reflexivity.
  - unfold get_description. rewrite H. reflexivity.
Qed.

(** The three cases on a stream error that was given the two entries of
    the example, and on one without entries. *)
Lemma get_description_prefers_language_witness :
  let self := set_text (new_object StreamErrorElement_class)
                [(PyNone, "Error"); (PyStr "fr", "Erreur")] in
  get_description self (PyStr "fr") = (PyStr "fr", PyStr "Erreur") /\
  get_description self (PyStr "de") = (PyNone, PyStr "Error") /\
  get_description (new_object StreamErrorElement_class) (PyStr "fr")
  = (PyNone, PyNone).
Proof.
  intro self. split; [|split].
  - apply (proj1 (get_description_prefers_language self (PyStr "fr"))
             [(PyNone, "Error")] "Erreur" []); [reflexivity|].
    constructor; [discriminate | constructor].
  - apply (proj1 (proj2 (get_description_prefers_language self (PyStr "de")))
             (PyNone, "Error") [(PyStr "fr", "Erreur")]); [reflexivity|].
    repeat constructor; discriminate.
  - apply (proj1 (proj2 (proj2 (get_description_prefers_language
                                  (new_object StreamErrorElement_class)
                                  (PyStr "fr"))))).
    reflexivity.
Defined.

(** C10, as the code has it.  A constructor call with a non-empty
    description never returns an error object.  It raises the [TypeError]
    of the two-argument [append] whenever the same call without the
    description returns.  For a stream error it otherwise raises exactly
    the exception that the same call without the description raises.  For
    a stanza error, whenever it raises another exception than that
    [TypeError], the same call without the description raises that
    exception too; the two calls can differ when the call without the
    description fails after the base initialisation, as on the legacy
    encoding of [undefined-condition], where it raises [AttributeError]
    and the call with the description raises the [TypeError]. *)
Theorem description_argument_never_constructs (K : constants)
  (description : pyval) :
  truthy description = true ->
  (forall arg lang l,
      StreamErrorElement_new K arg description lang l =
        match StreamErrorElement_new K arg PyNone lang l with
        | (Returns _, l') => (Raises append_TypeError, l')
        | (Raises e, l') => (Raises e, l')
        end) /\
  (forall arg lang error_type_arg l, exists e l',
      StanzaErrorElement_new K arg description lang error_type_arg l
        = (Raises e, l') /\
      (forall self0 l0,
          StanzaErrorElement_new K arg PyNone lang error_type_arg l
            = (Returns self0, l0) ->
          e = append_TypeError /\ l' = l0) /\
      (e <> append_TypeError ->
       StanzaErrorElement_new K arg PyNone lang error_type_arg l
         = (Raises e, l'))) /\
  (let legacy_encoding :=
     ArgElement
       (Element "{jabber:client}error"
          [("type", PyStr "cancel"); ("code", PyInt 500)] None
          [new_element
             "{urn:ietf:params:xml:ns:xmpp-stanzas}undefined-condition"]) in
   StanzaErrorElement_new xmpp_constants legacy_encoding PyNone PyNone PyNone
     []
   = (Raises (AttributeError "'str' object has no attribute 'tag'"), []) /\
   StanzaErrorElement_new xmpp_constants legacy_encoding description PyNone
     PyNone []
   = (Raises append_TypeError, [])).
Proof.
  intro Hd. split; [|split].
  - intros arg lang l.
    unfold StreamErrorElement_new, StreamErrorElement_init.
    unfold bind.
    match goal with |- context [match ?m l with _ => _ end] =>
      destruct (m l) as [[u|e0] l1] end; [|reflexivity].
    apply ErrorElement_init_description_cases. exact Hd.
  - intros arg lang error_type_arg l.
    unfold StanzaErrorElement_new, StanzaErrorElement_init.
    unfold bind.
    match goal with |- context [match ?m l with _ => _ end] =>
      destruct (m l) as [[s1|e0] l1] end.
    + rewrite (ErrorElement_init_description_cases K s1 arg description lang
                 l1 Hd).
      destruct (ErrorElement_init K s1 arg PyNone lang l1)
        as [[s2|e2] l2] eqn:E.
      * exists append_TypeError, l2. split; [reflexivity|]. split.
        -- intros self0 l0 H0. split; [reflexivity|].
           unfold bind, condition_tag, ret, raise in H0.
           destruct error_type_arg;
             cbn [condition set_error_type] in H0;
             destruct (condition s2) as [[c|c]|]; try discriminate;
             repeat match type of H0 with
               | context [if ?b then _ else _] => destruct b
               | context [match dict_get ?f ?d ?k with _ => _ end] =>
                   destruct (dict_get f d k) as [[[? ?] ?]|]
               end;
             try discriminate; inversion H0; reflexivity.
        -- intro Hne. now elim Hne.
      * exists e2, l2. split; [reflexivity|]. split.
        -- discriminate.
        -- reflexivity.
    + exists e0, l1. split; [reflexivity|]. split.
      * discriminate.
      * reflexivity.
  - cbv zeta. split; [vm_compute; reflexivity|].
    unfold StanzaErrorElement_new, StanzaErrorElement_init.
    unfold bind at 1.
    match goal with |- context [match ?m [] with _ => _ end] =>
      let r := eval vm_compute in (m []) in
      change (m []) with r end.
    cbv beta iota.
    unfold bind at 1.
    rewrite (ErrorElement_init_description_cases xmpp_constants _ _
               description PyNone [] Hd).
    match goal with |- context [match ?m with (_, _) => _ end] =>
      let r := eval vm_compute in m in
      change m with r end.
    reflexivity.
Qed.

(** A stream error and a stanza error constructed from a valid name with
    a description: both calls raise the [TypeError] of [append]. *)
Lemma description_argument_never_constructs_witness :
  StreamErrorElement_new xmpp_constants (ArgUnicode "conflict")
    (PyStr "Replaced by new connection") (PyStr "en") []
  = (Raises append_TypeError, []) /\
  (exists l', StanzaErrorElement_new xmpp_constants (ArgUnicode "forbidden")
                (PyStr "No access") PyNone PyNone []
              = (Raises append_TypeError, l')).
Proof.
  pose proof (description_argument_never_constructs xmpp_constants
                (PyStr "Replaced by new connection") eq_refl)
    as (Hstream & _ & _).
  pose proof (description_argument_never_constructs xmpp_constants
                (PyStr "No access") eq_refl) as (_ & Hstanza & _).
  split.
  - rewrite (Hstream (ArgUnicode "conflict") (PyStr "en") []).
    vm_compute. reflexivity.
  - destruct (Hstanza (ArgUnicode "forbidden") PyNone PyNone [])
      as (e & l' & Hr & Hn & _).
    exists l'. rewrite Hr. f_equal. f_equal.
    assert (Hplain : exists s,
               StanzaErrorElement_new xmpp_constants (ArgUnicode "forbidden")
                 PyNone PyNone PyNone [] = (Returns s, []))
      by (eexists; vm_compute; reflexivity).
    destruct Hplain as (s & Hs). exact (proj1 (Hn s [] Hs)).
Defined.

(** C10 as stated fails: with a name outside the stream vocabulary the
    constructor raises [ValueError], not [TypeError], although a non-empty
    description is given. *)
Lemma description_with_unknown_condition_raises_ValueError :
  run (StreamErrorElement_new xmpp_constants (ArgUnicode "no-such-condition")
         (PyStr "Something went wrong") PyNone)
  = (Raises (ValueError "Bad error condition"), []) /\
  forall msg l,
    run (StreamErrorElement_new xmpp_constants (ArgUnicode "no-such-condition")
           (PyStr "Something went wrong") PyNone)
    <> (Raises (TypeError msg), l).
Proof. split; [reflexivity | discriminate]. Qed.

(** C1, on the code.  Decoding an error element whose condition bears an
    obsolete name raises [NameError] (the name [condition] is not bound)
    instead of returning an error with the replacement name: for the stream
    conditions [xml-not-well-formed] and [invalid-id] and for the stanza
    condition [payment-required]. *)
Theorem decode_obsolete_condition_raises_NameError :
  run (StreamErrorElement_new xmpp_constants
         (ArgElement
            (Element "{http://etherx.jabber.org/streams}error" [] None
               [new_element
                  "{urn:ietf:params:xml:ns:xmpp-streams}xml-not-well-formed"]))
         PyNone PyNone)
  = (Raises (NameError "condition"), []) /\
  run (StreamErrorElement_new xmpp_constants
         (ArgElement
            (Element "{http://etherx.jabber.org/streams}error" [] None
               [new_element
                  "{urn:ietf:params:xml:ns:xmpp-streams}invalid-id"]))
         PyNone PyNone)
  = (Raises (NameError "condition"), []) /\
  run (StanzaErrorElement_new xmpp_constants
         (ArgElement
            (Element "{jabber:client}error" [("type", PyStr "auth")] None
               [new_element
                  "{urn:ietf:params:xml:ns:xmpp-stanzas}payment-required"]))
         PyNone PyNone PyNone)
  = (Raises (NameError "condition"), []).
Proof. repeat split. Qed.

(** C2, on the code.  A stanza error element with [code="404"] and no
    condition child decodes to an error whose condition is still
    [undefined-condition]: the attribute value is the string ["404"], the
    keys of [LEGACY_CODES] are ints, and the lookup finds nothing.  The
    legacy code itself is kept as that string. *)
Theorem decode_code_404_stays_undefined_condition :
  exists self,
    run (StanzaErrorElement_new xmpp_constants
           (ArgElement
              (Element "{jabber:client}error"
                 [("code", PyStr "404"); ("type", PyStr "cancel")] None []))
           PyNone PyNone PyNone)
    = (Returns self, []) /\
    run (condition_name self) = (Returns "undefined-condition", []) /\
    _legacy_code self = PyStr "404".
Proof. eexists. repeat split. Qed.

(** C3, on the code.  A stream error with a custom condition encodes to
    an element whose only child is the condition: the custom condition is
    left out.  With a text entry the encoding raises [NameError] (the name
    [XML_LANG_QNAME] is not bound). *)
Theorem as_xml_omits_custom_conditions_and_raises_on_text :
  exists self,
    run (StreamErrorElement_new xmpp_constants (ArgUnicode "conflict")
           PyNone PyNone) = (Returns self, []) /\
    run (ErrorElement_as_xml xmpp_constants
           (add_custom_condition self
              (new_element "{http://example.org/ns}session-replaced")))
    = (Returns
         (Element "{http://etherx.jabber.org/streams}error" [] None
            [new_element "{urn:ietf:params:xml:ns:xmpp-streams}conflict"]),
       []) /\
    run (ErrorElement_as_xml xmpp_constants
           (set_text self [(PyStr "en", "Replaced by new connection")]))
    = (Raises (NameError "XML_LANG_QNAME"), []).
Proof. eexists. repeat split. Qed.

(** C4, on the code.  Decoding an error element with a text child raises
    [NameError] (the name [XML_LANG_QNAME] is not bound), with or without a
    language attribute on the child and with or without a condition before
    it; no text entry is ever appended. *)
Theorem decode_text_child_raises_NameError :
  run (StreamErrorElement_new xmpp_constants
         (ArgElement
            (Element "{http://etherx.jabber.org/streams}error" [] None
               [new_element "{urn:ietf:params:xml:ns:xmpp-streams}host-gone";
                Element "{http://etherx.jabber.org/streams}text"
                  [("{http://www.w3.org/XML/1998/namespace}lang", PyStr "en")]
                  (Some "  The host is gone ") []]))
         PyNone PyNone)
  = (Raises (NameError "XML_LANG_QNAME"), []) /\
  run (StanzaErrorElement_new xmpp_constants
         (ArgElement
            (Element "{jabber:client}error" [("type", PyStr "cancel")] None
               [Element "{jabber:client}text" [] (Some "Not here") []]))
         PyNone PyNone PyNone)
  = (Raises (NameError "XML_LANG_QNAME"), []).
Proof. repeat split. Qed.

(** C7, on the code.  Decoding an error element with two condition
    children raises [NameError] when a text child follows them (after the
    warning for the duplicate) and when the first of them bears an obsolete
    name. *)
Theorem decode_duplicate_conditions_can_raise :
  run (StreamErrorElement_new xmpp_constants
         (ArgElement
            (Element "{http://etherx.jabber.org/streams}error" [] None
               [new_element "{urn:ietf:params:xml:ns:xmpp-streams}conflict";
                new_element "{urn:ietf:params:xml:ns:xmpp-streams}host-gone";
                Element "{http://etherx.jabber.org/streams}text" []
                  (Some "Replaced by new connection") []]))
         PyNone PyNone)
  = (Raises (NameError "XML_LANG_QNAME"),
     ["Multiple conditions in XMPP error node."]) /\
  run (StreamErrorElement_new xmpp_constants
         (ArgElement
            (Element "{http://etherx.jabber.org/streams}error" [] None
               [new_element
                  "{urn:ietf:params:xml:ns:xmpp-streams}xml-not-well-formed";
                new_element "{urn:ietf:params:xml:ns:xmpp-streams}bad-format"]))
         PyNone PyNone)
  = (Raises (NameError "condition"),
     ["Multiple conditions in XMPP error node."]).
Proof. repeat split. Qed.

(** C9, on the code.  [add_custom_condition] keeps the caller's element
    itself: after the caller renames its element, the custom condition of
    the error object bears the new name. *)
Theorem add_custom_condition_keeps_callers_element :
  let detail :=
    Element "{http://example.org/ns}quota-exceeded"
      [("limit", PyStr "10")] None [] in
  let rename := fun e =>
    Element "{http://example.org/ns}renamed"
      (attrib e) (elem_text e) (children e) in
  exists o st,
    Ownership.construct
      (fun arg => StreamErrorElement_new xmpp_constants arg PyNone PyNone)
      [detail] (Ownership.RefUnicode "policy-violation") []
    = Some (Returns (o, st), []) /\
    let o' := Ownership.add_custom_condition o 0 in
    option_map custom_condition (Ownership.view st o') = Some [detail] /\
    option_map custom_condition
      (Ownership.view (Ownership.mutate st 0 rename) o')
    = Some [rename detail].
Proof. do 2 eexists. repeat split. Qed.

(** * Further properties of the module *)

(** ** Which elements decode *)

(** X1. Decoding a stream error element returns exactly when the element
    bears the stream error name, every child is a condition candidate and
    the identified condition (the first child, or a synthesized
    [undefined-condition]) is not an obsolete name.  The result then holds
    that condition and nothing else, and one warning was logged for each
    child after the first. *)
Theorem stream_decode_returns_iff (K : constants) (e : element) (l l' : log)
  (self : ErrorElement) :
  let cond :=
    match children e with
    | c :: _ => c
    | [] => new_element (STREAM_ERROR_QNP K ++ "undefined-condition")
    end in
  StreamErrorElement_new K (ArgElement e) PyNone PyNone l = (Returns self, l')
  <->
  (tag e = (STREAM_QNP K ++ "error")%string /\
   forallb (fun c => startswith (tag c) (STREAM_ERROR_QNP K)) (children e)
   = true /\
   dict_contains String.eqb OBSOLETE_CONDITIONS (tag cond) = false /\
   self = set_condition (new_object StreamErrorElement_class)
            (Some (CondElement cond)) /\
   l' = l ++ repeat "Multiple conditions in XMPP error node."
               (pred (length (children e)))).
Proof.
  intro cond. rewrite StreamErrorElement_new_element. split.
  - intro H. apply ErrorElement_from_xml_returns in H. exact H.
  - intros (Ht & Hall & Hobs & -> & ->).
    rewrite ErrorElement_from_xml_conditions by assumption.
    cbv zeta.
    change (identified_condition K (new_object StreamErrorElement_class) e)
      with cond.
    now rewrite Hobs.
Qed.

(** Two conditions and nothing else: the first is kept, one warning. *)
Lemma stream_decode_returns_iff_witness :
  StreamErrorElement_new xmpp_constants
    (ArgElement
       (Element "{http://etherx.jabber.org/streams}error" [] None
          [new_element "{urn:ietf:params:xml:ns:xmpp-streams}conflict";
           new_element "{urn:ietf:params:xml:ns:xmpp-streams}host-gone"]))
    PyNone PyNone []
  = (Returns
       (set_condition (new_object StreamErrorElement_class)
          (Some (CondElement
                   (new_element
                      "{urn:ietf:params:xml:ns:xmpp-streams}conflict")))),
     ["Multiple conditions in XMPP error node."]).
Proof.
  apply (proj2 (stream_decode_returns_iff xmpp_constants _ [] _ _)).
  repeat split.
Defined.

(** X2. Decoding an element that does not bear the stream error name
    raises [ValueError] before anything is logged, whatever its children
    and whatever description is passed along. *)
Theorem stream_decode_wrong_name_raises_ValueError (K : constants)
  (e : element) (description lang : pyval) (l : log) :
  tag e <> (STREAM_QNP K ++ "error")%string ->
  StreamErrorElement_new K (ArgElement e) description lang l
  = (Raises (ValueError "element is not an error element of this class"), l).
Proof.
  intro Hne.
  unfold StreamErrorElement_new, StreamErrorElement_init, ErrorElement_init,
    _from_xml.
  cbn [class_of new_object set_text set_custom_condition].
  unfold bind at 1. cbn [ret].
  apply bind_raises. apply ErrorElement_from_xml_bad_tag. exact Hne.
Qed.

Lemma stream_decode_wrong_name_raises_ValueError_witness :
  StreamErrorElement_new xmpp_constants
    (ArgElement
       (Element "{jabber:client}error" [] None
          [new_element "{urn:ietf:params:xml:ns:xmpp-streams}conflict"]))
    (PyStr "Replaced") PyNone []
  = (Raises (ValueError "element is not an error element of this class"), []).
Proof.
  apply stream_decode_wrong_name_raises_ValueError. discriminate.
Defined.

(** ** Validation of the first argument *)

(** X3. [StreamErrorElement] checks the vocabulary for [unicode] names
    only: a [unicode] name outside [STREAM_ERRORS] raises [ValueError],
    while a byte string is accepted unchecked and becomes the local name
    of the condition. *)
Theorem stream_name_validation (K : constants) (s : string) (lang : pyval)
  (l : log) :
  (dict_contains String.eqb STREAM_ERRORS s = false ->
   forall description,
     StreamErrorElement_new K (ArgUnicode s) description lang l
     = (Raises (ValueError "Bad error condition"), l)) /\
  StreamErrorElement_new K (ArgStr s) PyNone lang l
  = (Returns
       (set_condition (new_object StreamErrorElement_class)
          (Some (CondElement (new_element (STREAM_ERROR_QNP K ++ s))))),
     l).
Proof.
  split; [|reflexivity].
  intros Hn description.
  unfold StreamErrorElement_new, StreamErrorElement_init, bind.
  now rewrite Hn.
Qed.

Lemma stream_name_validation_witness :
  StreamErrorElement_new xmpp_constants (ArgUnicode "payment-required")
    (PyStr "Pay first") PyNone []
  = (Raises (ValueError "Bad error condition"), []).
Proof.
  apply (proj1 (stream_name_validation xmpp_constants "payment-required"
                  PyNone [])).
  reflexivity.
Defined.

(** X4. [StanzaErrorElement] checks the vocabulary for both kinds of
    string: a name outside [STANZA_ERRORS] raises [ValueError], whatever
    the other arguments are. *)
Theorem stanza_name_validation (K : constants) (s : string)
  (description lang error_type_arg : pyval) (l : log) :
  dict_contains String.eqb STANZA_ERRORS s = false ->
  StanzaErrorElement_new K (ArgUnicode s) description lang error_type_arg l
  = (Raises (ValueError "Bad error condition"), l) /\
  StanzaErrorElement_new K (ArgStr s) description lang error_type_arg l
  = (Raises (ValueError "Bad error condition"), l).
Proof.
  intro Hn.
  unfold StanzaErrorElement_new, StanzaErrorElement_init, bind.
  rewrite Hn. split; reflexivity.
Qed.

Lemma stanza_name_validation_witness :
  StanzaErrorElement_new xmpp_constants (ArgUnicode "host-gone")
    PyNone PyNone (PyStr "cancel") []
  = (Raises (ValueError "Bad error condition"), []).
Proof.
  apply (stanza_name_validation xmpp_constants "host-gone").
  reflexivity.
Defined.

(** X5. Decoding a stanza error element raises [ValueError] when the
    name of the element has no namespace, and when its namespace is not
    one of [STANZA_NAMESPACES]; nothing is decoded or logged before. *)
Theorem stanza_decode_bad_namespace (K : constants) (e : element)
  (description lang error_type_arg : pyval) (l : log) :
  (startswith (tag e) "{" = false ->
   StanzaErrorElement_new K (ArgElement e) description lang error_type_arg l
   = (Raises (ValueError "Bad error namespace - no namespace"), l)) /\
  (startswith (tag e) "{" = true ->
   ~ In (fst (split1 "}"%char (drop_first (tag e)))) (STANZA_NAMESPACES K) ->
   StanzaErrorElement_new K (ArgElement e) description lang error_type_arg l
   = (Raises (ValueError "Bad error namespace"), l)).
Proof.
  unfold StanzaErrorElement_new, StanzaErrorElement_init, bind. split.
  - intros ->. reflexivity.
  - intros -> Hn.
    destruct (existsb _ (STANZA_NAMESPACES K)) eqn:E; [|reflexivity].
    apply existsb_exists in E as (ns & Hin & Heq).
    apply String.eqb_eq in Heq. subst ns. contradiction.
Qed.

Lemma stanza_decode_bad_namespace_witness :
  StanzaErrorElement_new xmpp_constants
    (ArgElement (Element "error" [] None [])) PyNone PyNone PyNone []
  = (Raises (ValueError "Bad error namespace - no namespace"), []) /\
  StanzaErrorElement_new xmpp_constants
    (ArgElement
       (Element "{http://etherx.jabber.org/streams}error" [] None []))
    PyNone PyNone PyNone []
  = (Raises (ValueError "Bad error namespace"), []).
Proof.
  split.
  - apply (proj1 (stanza_decode_bad_namespace xmpp_constants _ _ _ _ [])).
    reflexivity.
  - apply (proj2 (stanza_decode_bad_namespace xmpp_constants _ _ _ _ [])).
    + reflexivity.
    + vm_compute. intros [H|[H|H]]; [discriminate | discriminate | exact H].
Defined.

(** ** What the constructors leave in the object *)

Lemma StanzaErrorElement_from_xml_returns K self e l self' l' :
  StanzaErrorElement_from_xml K self e l = (Returns self', l') ->
  exists base,
    ErrorElement_from_xml K self e l = (Returns base, l') /\
    text self' = text self /\
    custom_condition self' = custom_condition self /\
    class_of self' = class_of self /\
    own_error_qname self' = own_error_qname self /\
    own_text_qname self' = own_text_qname self /\
    error_type self' =
      (if truthy (elem_get e "type") then elem_get e "type"
       else error_type self) /\
    _legacy_code self' =
      (if truthy (elem_get e "code") then elem_get e "code"
       else _legacy_code self).
Proof.
  unfold StanzaErrorElement_from_xml, bind.
  destruct (ErrorElement_from_xml K self e l) as [[base|ex] l1] eqn:Hb;
    [|discriminate].
  apply ErrorElement_from_xml_returns in Hb as (Ht & Hall & Hobs & -> & ->).
  intro H. eexists. split.
  - assert (l' = l ++ repeat multiple_conditions_warning
                          (pred (length (children e)))) as ->.
    { revert H. unfold condition_tag, ret, raise. cbn.
      destruct (truthy (elem_get e "code")); destruct (truthy (elem_get e "type"));
        cbn;
        repeat match goal with
          | |- context [if ?b then _ else _] => destruct b
          | |- context [match dict_get ?f ?d ?k with _ => _ end] =>
              destruct (dict_get f d k)
          end; intro H; inversion H; reflexivity. }
    reflexivity.
  - revert H. unfold condition_tag, ret, raise. cbn.
    destruct (truthy (elem_get e "code")); destruct (truthy (elem_get e "type"));
      cbn;
      repeat match goal with
        | |- context [if ?b then _ else _] => destruct b
        | |- context [match dict_get ?f ?d ?k with _ => _ end] =>
            destruct (dict_get f d k)
        end; intro H; inversion H; repeat split.
Qed.

Lemma from_xml_method_keeps_text K self e l self' l' :
  _from_xml K self e l = (Returns self', l') ->
  text self' = text self /\ custom_condition self' = custom_condition self.
Proof.
  unfold _from_xml. destruct (class_of self); intro H.
  - apply ErrorElement_from_xml_returns in H as (_&_&_&->&_). now split.
  - apply ErrorElement_from_xml_returns in H as (_&_&_&->&_). now split.
  - apply StanzaErrorElement_from_xml_returns in H as (_&_&Ht&Hc&_).
    now split.
Qed.

Lemma ErrorElement_init_returns K self arg description lang l self' l' :
  ErrorElement_init K self arg description lang l = (Returns self', l') ->
  truthy description = false /\
  text self' = [] /\ custom_condition self' = [].
Proof.
  unfold ErrorElement_init, bind.
  match goal with |- context [match ?m l with _ => _ end] =>
    destruct (m l) as [[s|e] l1] eqn:E end; [|discriminate].
  destruct (truthy description); [discriminate|].
  intro H. inversion H. subst s l1. clear H. split; [reflexivity|].
  destruct arg as [n|n|e|].
  - inversion E. now split.
  - inversion E. now split.
  - apply from_xml_method_keeps_text in E. exact E.
  - discriminate.
Qed.

(** The registry entries have a non-empty error type and a non-zero
    code. *)
Lemma STANZA_ERRORS_Q_entry K k msg ty code :
  dict_get String.eqb (STANZA_ERRORS_Q K) k = Some (msg, ty, code) ->
  truthy (PyStr ty) = true /\ truthy (PyInt code) = true.
Proof.
  intro H. apply dict_get_In in H. unfold STANZA_ERRORS_Q in H.
  apply in_map_iff in H as (x & Hx & Hin).
  inversion Hx as [[Hk Hv]]. clear Hx Hk.
  unfold STANZA_ERRORS in Hin. cbn [In] in Hin.
  repeat (destruct Hin as [Hin|Hin];
          [subst x; inversion Hv; subst; split; reflexivity|]).
  contradiction.
Qed.

(** The steps of [StanzaErrorElement.__init__] after the call of the base
    class: the object that the base class left, the condition it holds and
    the registry entry that supplies the defaults. *)
Lemma StanzaErrorElement_new_returns K arg description lang error_type_arg
  l self l' :
  StanzaErrorElement_new K arg description lang error_type_arg l
    = (Returns self, l') ->
  exists s0 s2 c,
    class_of s0 = StanzaErrorElement_class /\
    error_type s0 = PyNone /\ _legacy_code s0 = PyNone /\
    ErrorElement_init K s0 arg description lang l = (Returns s2, l') /\
    condition s2 = Some (CondElement c) /\
    condition self = condition s2 /\
    text self = text s2 /\
    custom_condition self = custom_condition s2 /\
    let given := match error_type_arg with
                 | PyNone => error_type s2
                 | _ => error_type_arg
                 end in
    let cond := if dict_contains String.eqb (STANZA_ERRORS_Q K) (tag c)
                then tag c else UNDEFINED_STANZA_CONDITION in
    (if truthy given then error_type self = given
     else exists msg ty code,
         dict_get String.eqb (STANZA_ERRORS_Q K) cond = Some (msg, ty, code)
         /\ error_type self = PyStr ty) /\
    (if truthy (_legacy_code s2) then _legacy_code self = _legacy_code s2
     else exists msg ty code,
         dict_get String.eqb (STANZA_ERRORS_Q K) cond = Some (msg, ty, code)
         /\ _legacy_code self = PyInt code) /\
    (class_of self = class_of s2 /\
     own_error_qname self = own_error_qname s2 /\
     own_text_qname self = own_text_qname s2).
Proof.
  unfold StanzaErrorElement_new, StanzaErrorElement_init. unfold bind at 1.
  match goal with |- context [match ?m l with _ => _ end] =>
    destruct (m l) as [[s0|e] l1] eqn:Hv end; [|discriminate].
  assert (Hs0 : class_of s0 = StanzaErrorElement_class /\
                error_type s0 = PyNone /\ _legacy_code s0 = PyNone /\ l1 = l).
  { destruct arg as [n|n|e|]; cbn in Hv.
    - destruct (negb _); inversion Hv. repeat split.
    - destruct (negb _); inversion Hv. repeat split.
    - destruct (startswith (tag e) "{"); [|discriminate].
      destruct (negb _); inversion Hv. repeat split.
    - discriminate. }
  destruct Hs0 as (Hc0 & He0 & Hl0 & ->). clear Hv.
  unfold bind at 1.
  destruct (ErrorElement_init K s0 arg description lang l)
    as [[s2|e] l2] eqn:Hinit; [|discriminate].
  unfold bind, condition_tag, ret, raise.
  set (s3 := match error_type_arg with
             | PyNone => s2 | _ => set_error_type s2 error_type_arg end).
  assert (Hs3 : condition s3 = condition s2 /\ text s3 = text s2 /\
                custom_condition s3 = custom_condition s2 /\
                _legacy_code s3 = _legacy_code s2 /\
                error_type s3 = match error_type_arg with
                                | PyNone => error_type s2
                                | _ => error_type_arg end /\
                class_of s3 = class_of s2 /\
                own_error_qname s3 = own_error_qname s2 /\
                own_text_qname s3 = own_text_qname s2).
  { unfold s3. destruct error_type_arg; repeat split. }
  destruct Hs3 as (H3c & H3t & H3u & H3l & H3e & H3k & H3q & H3x).
  clearbody s3.
  rewrite H3c.
  destruct (condition s2) as [[c|c]|] eqn:Hc2; try discriminate.
  intro H. exists s0, s2, c.
  repeat (split; [first [assumption | reflexivity]|]).
  cbv zeta. rewrite <- H3e.
  set (cond := if dict_contains String.eqb (STANZA_ERRORS_Q K) (tag c)
               then tag c else UNDEFINED_STANZA_CONDITION) in *.
  clearbody cond.
  destruct (truthy (error_type s3)) eqn:Te; cbn [negb] in H.
  - destruct (truthy (_legacy_code s3)) eqn:Tl; rewrite <- H3l, Tl;
      cbn [negb] in H.
    + inversion H. subst. repeat split; congruence.
    + destruct (dict_get String.eqb (STANZA_ERRORS_Q K) cond)
        as [[[m t] k]|] eqn:Hd; [|discriminate].
      inversion H. subst. cbn. repeat split; try congruence.
      exists m, t, k. split; reflexivity.
  - destruct (dict_get String.eqb (STANZA_ERRORS_Q K) cond)
      as [[[m t] k]|] eqn:Hd; [|discriminate].
    cbn [_legacy_code set_error_type] in H.
    destruct (truthy (_legacy_code s3)) eqn:Tl; rewrite <- H3l, Tl;
      cbn [negb] in H.
    + inversion H. subst. cbn. repeat split; try congruence.
      exists m, t, k. split; reflexivity.
    + inversion H. subst. cbn.
      repeat split; try congruence; exists m, t, k; split; reflexivity.
Qed.

Lemma ErrorElement_init_stanza_element K s0 e description lang l s2 l' :
  class_of s0 = StanzaErrorElement_class ->
  ErrorElement_init K s0 (ArgElement e) description lang l = (Returns s2, l') ->
  error_type s2 =
    (if truthy (elem_get e "type") then elem_get e "type" else error_type s0)
  /\
  _legacy_code s2 =
    (if truthy (elem_get e "code") then elem_get e "code"
     else _legacy_code s0) /\
  error_qname K s2 = error_qname K s0 /\
  tag e = error_qname K s0.
Proof.
  intro Hc. unfold ErrorElement_init, bind, _from_xml.
  cbn [class_of set_text set_custom_condition]. rewrite Hc.
  match goal with |- context [StanzaErrorElement_from_xml K ?s e l] =>
    destruct (StanzaErrorElement_from_xml K s e l) as [[s1|ex] l1] eqn:E end;
    [|discriminate].
  destruct (truthy description); [discriminate|].
  intro H. inversion H. subst s1 l1.
  apply StanzaErrorElement_from_xml_returns in E
    as (base & Hb & _ & _ & Hcl & Ho & _ & Het & Hlc).
  apply ErrorElement_from_xml_returns in Hb as (Ht & _).
  repeat split; try assumption.
  unfold error_qname. now rewrite Hcl, Ho.
Qed.

(** X6. An error object that a constructor returns has no text entry and
    no custom condition, whether it was built from a name or decoded from
    an element; and a constructor returns only when the description
    argument is empty. *)
Theorem constructed_error_has_no_text_or_custom_condition (K : constants)
  (arg : pyarg) (description lang error_type_arg : pyval) (l l' : log)
  (self : ErrorElement) :
  ErrorElement_new K arg description lang l = (Returns self, l') \/
  StreamErrorElement_new K arg description lang l = (Returns self, l') \/
  StanzaErrorElement_new K arg description lang error_type_arg l
    = (Returns self, l') ->
  text self = [] /\ custom_condition self = [] /\
  truthy description = false.
Proof.
  intros [H|[H|H]].
  - unfold ErrorElement_new in H.
    apply ErrorElement_init_returns in H as (Hd & Ht & Hc). now repeat split.
  - unfold StreamErrorElement_new, StreamErrorElement_init, bind in H.
    match type of H with context [match ?m l with _ => _ end] =>
      destruct (m l) as [[u|e] l1] end; [|discriminate].
    apply ErrorElement_init_returns in H as (Hd & Ht & Hc).
    now repeat split.
  - apply StanzaErrorElement_new_returns in H
      as (s0 & s2 & c & _ & _ & _ & Hinit & _ & _ & Ht & Hc & _).
    apply ErrorElement_init_returns in Hinit as (Hd & Ht2 & Hc2).
    repeat split; congruence.
Qed.

Lemma constructed_error_has_no_text_or_custom_condition_witness :
  exists self,
    StanzaErrorElement_new xmpp_constants
      (ArgElement
         (Element "{jabber:server}error" [("type", PyStr "wait")] None
            [new_element
               "{urn:ietf:params:xml:ns:xmpp-stanzas}resource-constraint"]))
      PyNone PyNone PyNone [] = (Returns self, []) /\
    text self = [] /\ custom_condition self = [] /\ truthy PyNone = false.
Proof.
  eexists. split; [reflexivity|].
  apply (constructed_error_has_no_text_or_custom_condition xmpp_constants
           (ArgElement
              (Element "{jabber:server}error" [("type", PyStr "wait")] None
                 [new_element
                    "{urn:ietf:params:xml:ns:xmpp-stanzas}resource-constraint"]))
           PyNone PyNone PyNone [] []).
  right. right. reflexivity.
Defined.

(** X7. A stanza error that the constructor returns always has a
    non-empty error type and a non-empty legacy code, whatever the
    arguments and the decoded element were. *)
Theorem stanza_error_type_and_code_never_unset (K : constants) (arg : pyarg)
  (description lang error_type_arg : pyval) (l l' : log)
  (self : ErrorElement) :
  StanzaErrorElement_new K arg description lang error_type_arg l
    = (Returns self, l') ->
  truthy (error_type self) = true /\ truthy (_legacy_code self) = true.
Proof.
  intro H.
  apply StanzaErrorElement_new_returns in H
    as (s0 & s2 & c & _ & _ & _ & _ & _ & _ & _ & _ & Hty & Hcode & _).
  cbv zeta in Hty, Hcode. split.
  - destruct (truthy _) eqn:T in Hty.
    + now rewrite Hty.
    + destruct Hty as (m & t & k & Hd & ->).
      apply (STANZA_ERRORS_Q_entry K _ _ _ _ Hd).
  - destruct (truthy (_legacy_code s2)) eqn:T.
    + now rewrite Hcode.
    + destruct Hcode as (m & t & k & Hd & ->).
      apply (STANZA_ERRORS_Q_entry K _ _ _ _ Hd).
Qed.

Lemma stanza_error_type_and_code_never_unset_witness :
  exists self,
    StanzaErrorElement_new xmpp_constants
      (ArgElement (Element "{jabber:client}error" [] None []))
      PyNone PyNone PyNone [] = (Returns self, []) /\
    truthy (error_type self) = true /\ truthy (_legacy_code self) = true.
Proof.
  eexists. split; [reflexivity|].
  apply (stanza_error_type_and_code_never_unset xmpp_constants
           (ArgElement (Element "{jabber:client}error" [] None []))
           PyNone PyNone PyNone [] []).
  reflexivity.
Defined.

(** X8. The error type of a stanza error is resolved in this order: a
    non-empty [error_type] argument wins; without the argument a non-empty
    [type] attribute of the decoded element is taken; an argument that is
    given but empty discards the attribute and leaves the registry default
    of some condition. *)
Theorem stanza_error_type_priority (K : constants) (arg : pyarg)
  (description lang error_type_arg : pyval) (l l' : log)
  (self : ErrorElement) :
  StanzaErrorElement_new K arg description lang error_type_arg l
    = (Returns self, l') ->
  (truthy error_type_arg = true -> error_type self = error_type_arg) /\
  (forall e, arg = ArgElement e -> error_type_arg = PyNone ->
             truthy (elem_get e "type") = true ->
             error_type self = elem_get e "type") /\
  (error_type_arg <> PyNone -> truthy error_type_arg = false ->
   exists k msg ty code,
     dict_get String.eqb (STANZA_ERRORS_Q K) k = Some (msg, ty, code) /\
     error_type self = PyStr ty).
Proof.
  intro H.
  apply StanzaErrorElement_new_returns in H
    as (s0 & s2 & c & Hc0 & He0 & _ & Hinit & _ & _ & _ & _ & Hty & _).
  cbv zeta in Hty. split; [|split].
  - intro T. destruct error_type_arg; try discriminate; now rewrite T in Hty.
  - intros e -> -> T.
    apply (ErrorElement_init_stanza_element K _ _ _ _ _ _ _ Hc0) in Hinit
      as (Het & _).
    rewrite T in Het. rewrite Het, T in Hty. exact Hty.
  - intros Hn T. destruct error_type_arg; try congruence;
      rewrite T in Hty; destruct Hty as (m & t & k & Hd & Ht);
      eexists _, m, t, k; split; eassumption.
Qed.

Lemma stanza_error_type_priority_witness :
  exists self,
    StanzaErrorElement_new xmpp_constants
      (ArgElement
         (Element "{jabber:client}error" [("type", PyStr "wait")] None
            [new_element "{urn:ietf:params:xml:ns:xmpp-stanzas}conflict"]))
      PyNone PyNone (PyStr "modify") [] = (Returns self, []) /\
    error_type self = PyStr "modify".
Proof.
  eexists. split; [vm_compute; reflexivity|].
  match goal with |- error_type ?s = _ =>
    assert (H : StanzaErrorElement_new xmpp_constants
                  (ArgElement
                     (Element "{jabber:client}error" [("type", PyStr "wait")]
                        None
                        [new_element
                           "{urn:ietf:params:xml:ns:xmpp-stanzas}conflict"]))
                  PyNone PyNone (PyStr "modify") [] = (Returns s, []))
      by (vm_compute; reflexivity)
  end.
  apply (proj1 (stanza_error_type_priority _ _ _ _ _ _ _ _ H)).
  reflexivity.
Defined.

(** ** Condition names and messages *)

Lemma ErrorElement_init_name K s0 arg s description lang l s2 l' :
  arg = ArgUnicode s \/ arg = ArgStr s ->
  ErrorElement_init K s0 arg description lang l = (Returns s2, l') ->
  condition s2
  = Some (CondElement (new_element (cond_qname_prefix K s0 ++ s))) /\
  l' = l.
Proof.
  intros Harg. unfold ErrorElement_init, bind.
  destruct Harg as [-> | ->]; cbn [ret];
    (destruct (truthy description); [discriminate|]);
    intro H; inversion H; split; reflexivity.
Qed.

(** X9. Under the RFC 6120 namespaces, a stream error that was built
    from a name [s] (a checked [unicode] name or an unchecked byte string)
    gives [s] back as its [condition_name], and [get_message] is the
    message that [STREAM_ERRORS] holds for [s], [None] when it holds
    none. *)
Theorem stream_error_name_and_message (K : constants) (arg : pyarg)
  (s : string) (lang : pyval) (l l' : log) (self : ErrorElement) :
  rfc_error_namespaces K ->
  arg = ArgUnicode s \/ arg = ArgStr s ->
  StreamErrorElement_new K arg PyNone lang l = (Returns self, l') ->
  condition_name self l' = (Returns s, l') /\
  StreamErrorElement_get_message self l'
  = (Returns (dict_get String.eqb STREAM_ERRORS s), l').
Proof.
  intros (_ & _ & Hqnp & _) Harg H.
  unfold StreamErrorElement_new, StreamErrorElement_init, bind in H.
  match type of H with context [match ?m l with _ => _ end] =>
    destruct (m l) as [[u|e] l1] end; [|discriminate].
  apply (ErrorElement_init_name K _ arg s _ _ _ _ _ Harg) in H as (Hc & _).
  cbn [cond_qname_prefix class_of new_object] in Hc. rewrite Hqnp in Hc.
  assert (Hn : condition_name self l' = (Returns s, l')).
  { unfold condition_name, bind, condition_tag. rewrite Hc. reflexivity. }
  split; [exact Hn|].
  unfold StreamErrorElement_get_message.
  now rewrite (bind_returns _ _ _ _ _ Hn).
Qed.

Lemma stream_error_name_and_message_witness :
  exists self,
    StreamErrorElement_new xmpp_constants (ArgUnicode "system-shutdown")
      PyNone PyNone [] = (Returns self, []) /\
    condition_name self [] = (Returns "system-shutdown", []) /\
    StreamErrorElement_get_message self []
    = (Returns (dict_get String.eqb STREAM_ERRORS "system-shutdown"), []).
Proof.
  eexists. split; [reflexivity|].
  apply (stream_error_name_and_message xmpp_constants
           (ArgUnicode "system-shutdown") "system-shutdown" PyNone [] []).
  - repeat split.
  - left. reflexivity.
  - reflexivity.
Defined.

(** X10. Under the RFC 6120 namespaces, a stanza error that was built
    from a name [s] gives [s] back as its [condition_name], [s] is a name
    of [STANZA_ERRORS], and [get_message] is the message registered for
    it. *)
Theorem stanza_error_name_and_message (K : constants) (arg : pyarg)
  (s : string) (lang error_type_arg : pyval) (l l' : log)
  (self : ErrorElement) :
  rfc_error_namespaces K ->
  arg = ArgUnicode s \/ arg = ArgStr s ->
  StanzaErrorElement_new K arg PyNone lang error_type_arg l
    = (Returns self, l') ->
  condition_name self l' = (Returns s, l') /\
  exists msg ty code,
    dict_get String.eqb STANZA_ERRORS s = Some (msg, ty, code) /\
    StanzaErrorElement_get_message self l' = (Returns (Some msg), l').
Proof.
  intros (_ & _ & _ & Hqnp) Harg H.
  assert (Hvocab : dict_contains String.eqb STANZA_ERRORS s = true).
  { destruct (dict_contains String.eqb STANZA_ERRORS s) eqn:E;
      [reflexivity|].
    destruct (stanza_name_validation K s PyNone lang error_type_arg l E)
      as [H1 H2].
    destruct Harg as [-> | ->]; congruence. }
  apply StanzaErrorElement_new_returns in H
    as (s0 & s2 & c & Hc0 & _ & _ & Hinit & _ & Hcs & _).
  apply (ErrorElement_init_name K _ arg s _ _ _ _ _ Harg) in Hinit
    as (Hc & _).
  unfold cond_qname_prefix in Hc. rewrite Hc0, Hqnp in Hc.
  assert (Hn : condition_name self l' = (Returns s, l')).
  { unfold condition_name, bind, condition_tag. rewrite Hcs, Hc.
    reflexivity. }
  split; [exact Hn|].
  unfold dict_contains in Hvocab.
  destruct (dict_get String.eqb STANZA_ERRORS s) as [[[m t] k]|] eqn:Hd;
    [|discriminate].
  exists m, t, k. split; [reflexivity|].
  unfold StanzaErrorElement_get_message.
  rewrite (bind_returns _ _ _ _ _ Hn). now rewrite Hd.
Qed.

Lemma stanza_error_name_and_message_witness :
  exists self,
    StanzaErrorElement_new xmpp_constants (ArgUnicode "jid-malformed")
      PyNone PyNone PyNone [] = (Returns self, []) /\
    condition_name self [] = (Returns "jid-malformed", []) /\
    exists msg ty code,
      dict_get String.eqb STANZA_ERRORS "jid-malformed"
      = Some (msg, ty, code) /\
      StanzaErrorElement_get_message self [] = (Returns (Some msg), []).
Proof.
  eexists. split; [reflexivity|].
  apply (stanza_error_name_and_message xmpp_constants
           (ArgUnicode "jid-malformed") "jid-malformed" PyNone PyNone [] []).
  - repeat split.
  - left. reflexivity.
  - reflexivity.
Defined.


(** ** The shape of an encoding *)

Lemma ErrorElement_as_xml_returns K self l el l' :
  ErrorElement_as_xml K self l = (Returns el, l') ->
  exists c,
    condition self = Some (CondElement c) /\
    text self = [] /\
    el = Element (error_qname K self) [] None [c] /\
    l' = l.
Proof.
  unfold ErrorElement_as_xml.
  destruct (condition self) as [[c|s]|]; try discriminate.
  destruct (text self) as [|entry entries].
  - cbn. rewrite deepcopy_value. intro H. inversion H. exists c.
    repeat split.
  - rewrite as_xml_text_loop_raises. discriminate.
Qed.

Lemma StanzaErrorElement_as_xml_returns (K : constants)
  (self : ErrorElement) (legacy : bool) (l l' : log) (el : element) :
  StanzaErrorElement_as_xml K self legacy l = (Returns el, l') ->
  exists c,
    condition self = Some (CondElement c) /\
    text self = [] /\
    l' = l /\
    el = Element (error_qname K self)
           (("type", error_type self)
              :: if legacy then [("code", _legacy_code self)] else [])
           None [c].
Proof.
  unfold StanzaErrorElement_as_xml. unfold bind at 1.
  destruct (ErrorElement_as_xml K self l) as [[r|ex] l1] eqn:E;
    [|discriminate].
  apply ErrorElement_as_xml_returns in E as (c & Hc & Ht & -> & ->).
  unfold bind, condition_tag, ret, raise. rewrite Hc.
  destruct legacy.
  - destruct (negb (truthy (_legacy_code self))).
    + destruct (dict_get String.eqb (STANZA_ERRORS_Q K) (tag c))
        as [[[m t] k]|]; [|discriminate].
      intro H. inversion H. exists c. repeat split; assumption.
    + intro H. inversion H. exists c. repeat split; assumption.
  - intro H. inversion H. exists c. repeat split; assumption.
Qed.


(** X12. For a stanza error whose condition is an element, [as_xml]
    returns only when the error has no text entry, and its result is then
    the outer element with the condition as its only child, no text, the
    [type] attribute and, with [legacy], the [code] attribute holding the
    legacy code of the object; nothing is logged.  It does return when
    there is no text entry and either [legacy] is off, or the legacy code
    is non-empty, or the condition is registered. *)
Theorem stanza_as_xml_shape (K : constants) (self : ErrorElement)
  (c : element) (legacy : bool) (l : log) :
  condition self = Some (CondElement c) ->
  let shape :=
    Element (error_qname K self)
      (("type", error_type self)
         :: if legacy then [("code", _legacy_code self)] else [])
      None [c] in
  (forall el l',
      StanzaErrorElement_as_xml K self legacy l = (Returns el, l') ->
      text self = [] /\ l' = l /\ el = shape) /\
  (text self = [] ->
   legacy = false \/ truthy (_legacy_code self) = true \/
   dict_contains String.eqb (STANZA_ERRORS_Q K) (tag c) = true ->
   StanzaErrorElement_as_xml K self legacy l = (Returns shape, l)).
Proof.
  intros Hc shape. split.
  - intros el l' H.
    apply StanzaErrorElement_as_xml_returns in H
      as (c' & Hc' & Ht & Hl & Hel).
    rewrite Hc in Hc'. inversion Hc'. subst c'. now repeat split.
  - intros Ht Hcase. unfold StanzaErrorElement_as_xml.
    rewrite (bind_returns _ _ _ _ _
               (ErrorElement_as_xml_no_text K self c l Hc Ht)).
    unfold shape. destruct legacy; [|reflexivity].
    destruct Hcase as [Hf|[Hcode|Hreg]]; [discriminate| |].
    + rewrite Hcode. reflexivity.
    + destruct (truthy (_legacy_code self)); [reflexivity|].
      cbn [negb]. unfold bind, condition_tag. rewrite Hc. cbn [ret].
      unfold dict_contains in Hreg.
      destruct (dict_get String.eqb (STANZA_ERRORS_Q K) (tag c))
        as [[[m t] k]|]; [reflexivity | discriminate].
Qed.

Lemma stanza_as_xml_shape_witness :
  let self :=
    {| class_of := StanzaErrorElement_class;
       own_error_qname := None; own_text_qname := None;
       condition :=
         Some (CondElement
                 (new_element
                    "{urn:ietf:params:xml:ns:xmpp-stanzas}not-allowed"));
       text := []; custom_condition := [];
       error_type := PyStr "cancel"; _legacy_code := PyInt 405 |} in
  StanzaErrorElement_new xmpp_constants (ArgUnicode "not-allowed")
    PyNone PyNone PyNone [] = (Returns self, []) /\
  StanzaErrorElement_as_xml xmpp_constants self true []
  = (Returns
       (Element "{jabber:client}error"
          [("type", PyStr "cancel"); ("code", PyInt 405)] None
          [new_element "{urn:ietf:params:xml:ns:xmpp-stanzas}not-allowed"]),
     []).
Proof.
  intro self. split; [vm_compute; reflexivity|].
  apply (proj2 (stanza_as_xml_shape xmpp_constants self
                  (new_element
                     "{urn:ietf:params:xml:ns:xmpp-stanzas}not-allowed")
                  true [] eq_refl)).
  - reflexivity.
  - right. left. reflexivity.
Defined.

(** X13. Custom conditions never reach the wire: however many elements
    are added with [add_custom_condition], [as_xml] gives the same outcome
    as before, for the shared encoding and for the stanza encoding. *)
Theorem as_xml_ignores_added_custom_conditions (K : constants)
  (self : ErrorElement) (added : list element) (legacy : bool) (l : log) :
  let self' := fold_left add_custom_condition added self in
  ErrorElement_as_xml K self' l = ErrorElement_as_xml K self l /\
  StanzaErrorElement_as_xml K self' legacy l
  = StanzaErrorElement_as_xml K self legacy l.
Proof.
  cbv zeta. revert self.
  induction added as [|e added IH]; intro self; [split; reflexivity|].
  cbn [fold_left]. destruct (IH (add_custom_condition self e)) as [H1 H2].
  assert (Hb : forall l0, ErrorElement_as_xml K (add_custom_condition self e) l0
                          = ErrorElement_as_xml K self l0).
  { intro l0. apply ErrorElement_as_xml_ignores_custom_conditions. }
  split.
  - now rewrite H1, Hb.
  - rewrite H2. unfold StanzaErrorElement_as_xml, bind. rewrite Hb.
    reflexivity.
Qed.

(** ** Decoding and encoding again *)

(** X14. Whatever stream error element was decoded, encoding the result
    and decoding the encoding gives the same error object again, without
    a warning; the encoding has dropped the attributes and the text of the
    outer element and every child but the identified condition. *)
Theorem stream_decode_encode_decode (K : constants) (e : element)
  (l l' : log) (self : ErrorElement) :
  StreamErrorElement_new K (ArgElement e) PyNone PyNone l = (Returns self, l')
  ->
  exists c,
    condition self = Some (CondElement c) /\
    ErrorElement_as_xml K self l'
    = (Returns (Element (STREAM_QNP K ++ "error") [] None [c]), l') /\
    StreamErrorElement_new K
      (ArgElement (Element (STREAM_QNP K ++ "error") [] None [c]))
      PyNone PyNone l'
    = (Returns self, l').
Proof.
  intro H. rewrite StreamErrorElement_new_element in H.
  apply ErrorElement_from_xml_returns in H as (Ht & Hall & Hobs & -> & _).
  set (c := identified_condition K (new_object StreamErrorElement_class) e)
    in *.
  exists c. split; [reflexivity|]. split.
  - apply ErrorElement_as_xml_no_text; reflexivity.
  - rewrite StreamErrorElement_new_element.
    rewrite (from_xml_current_condition_unchanged K _ _ c [] l');
      try reflexivity; try assumption.
    + cbn. now rewrite app_nil_r.
    + cbn [forallb]. rewrite andb_true_r.
      unfold c, identified_condition.
      destruct (children e) as [|c0 cs] eqn:Hc.
      * apply startswith_app.
      * cbn [forallb] in Hall. now apply andb_true_iff in Hall as [Hc0 _].
Qed.

Lemma stream_decode_encode_decode_witness :
  exists self c,
    StreamErrorElement_new xmpp_constants
      (ArgElement
         (Element "{http://etherx.jabber.org/streams}error"
            [("id", PyStr "s1")] (Some " ")
            [new_element "{urn:ietf:params:xml:ns:xmpp-streams}reset";
             new_element "{urn:ietf:params:xml:ns:xmpp-streams}conflict"]))
      PyNone PyNone [] = (Returns self, [multiple_conditions_warning]) /\
    condition self = Some (CondElement c) /\
    StreamErrorElement_new xmpp_constants
      (ArgElement
         (Element "{http://etherx.jabber.org/streams}error" [] None [c]))
      PyNone PyNone [multiple_conditions_warning]
    = (Returns self, [multiple_conditions_warning]).
Proof.
  eexists.
  destruct (stream_decode_encode_decode xmpp_constants
              (Element "{http://etherx.jabber.org/streams}error"
                 [("id", PyStr "s1")] (Some " ")
                 [new_element "{urn:ietf:params:xml:ns:xmpp-streams}reset";
                  new_element "{urn:ietf:params:xml:ns:xmpp-streams}conflict"])
              [] [multiple_conditions_warning] _ eq_refl)
    as (c & Hc & _ & Hd).
  exists c. split; [reflexivity|]. split; [exact Hc | exact Hd].
Defined.

(** X15. A stanza error that was decoded from an element encodes under
    the name of that element: the outer name of the encoding is the name
    of the decoded element, in whichever sanctioned dialect it was. *)
Theorem stanza_encoding_keeps_outer_name (K : constants) (e : element)
  (description lang error_type_arg : pyval) (legacy : bool)
  (l l1 l2 l3 : log) (self : ErrorElement) (el : element) :
  StanzaErrorElement_new K (ArgElement e) description lang error_type_arg l
    = (Returns self, l1) ->
  StanzaErrorElement_as_xml K self legacy l2 = (Returns el, l3) ->
  tag el = tag e.
Proof.
  intros Hnew Hxml.
  apply StanzaErrorElement_new_returns in Hnew
    as (s0 & s2 & c & Hc0 & _ & _ & Hinit & _ & _ & _ & _ & _ & _
        & Hk & Hq & _).
  apply (ErrorElement_init_stanza_element K _ _ _ _ _ _ _ Hc0) in Hinit
    as (_ & _ & Hq2 & Ht).
  apply StanzaErrorElement_as_xml_returns in Hxml as (c' & _ & _ & _ & ->).
  cbn [tag]. rewrite Ht, <- Hq2. unfold error_qname. now rewrite Hk, Hq.
Qed.

Lemma stanza_encoding_keeps_outer_name_witness :
  exists self el,
    StanzaErrorElement_new xmpp_constants
      (ArgElement
         (Element "{jabber:server}error" [("type", PyStr "auth")] None
            [new_element "{urn:ietf:params:xml:ns:xmpp-stanzas}forbidden"]))
      PyNone PyNone PyNone [] = (Returns self, []) /\
    StanzaErrorElement_as_xml xmpp_constants self false [] = (Returns el, [])
    /\ tag el = "{jabber:server}error".
Proof.
  do 2 eexists.
  split; [vm_compute; reflexivity|]. split; [vm_compute; reflexivity|].
  match goal with |- tag ?el = _ =>
    assert (H1 : exists s,
               StanzaErrorElement_new xmpp_constants
                 (ArgElement
                    (Element "{jabber:server}error" [("type", PyStr "auth")]
                       None
                       [new_element
                          "{urn:ietf:params:xml:ns:xmpp-stanzas}forbidden"]))
                 PyNone PyNone PyNone [] = (Returns s, []) /\
               StanzaErrorElement_as_xml xmpp_constants s false []
               = (Returns el, []))
      by (eexists; split; vm_compute; reflexivity)
  end.
  destruct H1 as (s & Hnew & Hxml).
  exact (stanza_encoding_keeps_outer_name _ _ _ _ _ _ _ _ _ _ _ _ Hnew Hxml).
Defined.

(** X16. The legacy code of a decoded stanza error: a non-empty [code]
    attribute is kept as the value it is (a string read from the wire
    stays a string) and is what [as_xml] writes back with [legacy];
    without the attribute the code is the integer of a registry entry. *)
Theorem stanza_legacy_code_priority (K : constants) (e : element)
  (description lang error_type_arg : pyval) (l l' : log)
  (self : ErrorElement) :
  StanzaErrorElement_new K (ArgElement e) description lang error_type_arg l
    = (Returns self, l') ->
  (truthy (elem_get e "code") = true ->
   _legacy_code self = elem_get e "code" /\
   forall el l1 l2,
     StanzaErrorElement_as_xml K self true l1 = (Returns el, l2) ->
     elem_get el "code" = elem_get e "code") /\
  (truthy (elem_get e "code") = false ->
   exists k msg ty code,
     dict_get String.eqb (STANZA_ERRORS_Q K) k = Some (msg, ty, code) /\
     _legacy_code self = PyInt code).
Proof.
  intro H.
  apply StanzaErrorElement_new_returns in H
    as (s0 & s2 & c & Hc0 & _ & Hl0 & Hinit & _ & _ & _ & _ & _ & Hcode & _).
  apply (ErrorElement_init_stanza_element K _ _ _ _ _ _ _ Hc0) in Hinit
    as (_ & Hlc & _).
  cbv zeta in Hcode. split.
  - intro T. rewrite T in Hlc. rewrite Hlc, T in Hcode. split; [exact Hcode|].
    intros el l1 l2 Hx.
    apply StanzaErrorElement_as_xml_returns in Hx as (c' & _ & _ & _ & ->).
    unfold elem_get. cbn. now rewrite Hcode.
  - intro T. rewrite T, Hl0 in Hlc. rewrite Hlc in Hcode.
    cbn [truthy] in Hcode.
    destruct Hcode as (m & t & k & Hd & Hc). eexists _, m, t, k.
    split; [exact Hd | exact Hc].
Qed.

Lemma stanza_legacy_code_priority_witness :
  exists self,
    StanzaErrorElement_new xmpp_constants
      (ArgElement
         (Element "{jabber:client}error"
            [("code", PyStr "503"); ("type", PyStr "cancel")] None
            [new_element
               "{urn:ietf:params:xml:ns:xmpp-stanzas}service-unavailable"]))
      PyNone PyNone PyNone [] = (Returns self, []) /\
    _legacy_code self = PyStr "503".
Proof.
  eexists. split; [vm_compute; reflexivity|].
  match goal with |- _legacy_code ?s = _ =>
    assert (H : StanzaErrorElement_new xmpp_constants
                  (ArgElement
                     (Element "{jabber:client}error"
                        [("code", PyStr "503"); ("type", PyStr "cancel")] None
                        [new_element
                           "{urn:ietf:params:xml:ns:xmpp-stanzas}service-unavailable"]))
                  PyNone PyNone PyNone [] = (Returns s, []))
      by (vm_compute; reflexivity)
  end.
  apply (proj1 (stanza_legacy_code_priority _ _ _ _ _ _ _ _ H)).
  vm_compute. reflexivity.
Defined.

(** ** Round trip of the stanza conditions *)

Lemma string_append_assoc (a b c : string) :
  ((a ++ b) ++ c = a ++ (b ++ c))%string.
Proof. induction a as [|x a IH]; simpl; [reflexivity | now rewrite IH]. Qed.

Lemma split1_at_separator (sep : ascii) (ns rest : string) :
  has_char sep ns = false ->
  split1 sep (ns ++ String sep rest) = (ns, Some rest).
Proof.
  induction ns as [|x ns IH]; simpl; intro H.
  - now rewrite Ascii.eqb_refl.
  - apply orb_false_iff in H as [H1 H2]. rewrite H1, (IH H2). reflexivity.
Qed.

(** Decoding accepts the name under which the class encodes. *)
Lemma stanza_client_name_accepted K ns :
  sanctioned_client_dialect K ns ->
  startswith (STANZA_CLIENT_QNP K ++ "error") "{" = true /\
  fst (split1 "}"%char (drop_first (STANZA_CLIENT_QNP K ++ "error"))) = ns /\
  existsb (String.eqb ns) (STANZA_NAMESPACES K) = true /\
  qualify ns "error" = (STANZA_CLIENT_QNP K ++ "error")%string.
Proof.
  intros (Hq & Hin & Hb). rewrite Hq. split; [|split; [|split]].
  - change (startswith (("{" ++ (ns ++ "}")) ++ "error") ("{" ++ EmptyString)
            = true).
    rewrite string_append_assoc. apply startswith_app.
  - cbn [append drop_first]. rewrite string_append_assoc.
    change ("}" ++ "error")%string with (String "}"%char "error").
    now rewrite split1_at_separator.
  - apply existsb_exists. exists ns. split; [exact Hin|].
    apply String.eqb_refl.
  - unfold qualify. cbn [append]. now rewrite string_append_assoc.
Qed.

Lemma stanza_decode_single_condition K ns attrs c l :
  sanctioned_client_dialect K ns ->
  startswith (tag c) (STANZA_ERROR_QNP K) = true ->
  dict_contains String.eqb OBSOLETE_CONDITIONS (tag c) = false ->
  let e := Element (STANZA_CLIENT_QNP K ++ "error") attrs None [c] in
  let s0 := set_own_qnames
              (set_legacy_code
                 (set_error_type (new_object StanzaErrorElement_class) PyNone)
                 PyNone)
              (qualify ns "error") (qualify ns "text") in
  ErrorElement_from_xml K s0 e l
  = (Returns (set_condition s0 (Some (CondElement c))), l).
Proof.
  intros Hd Hc Hobs e s0.
  destruct (stanza_client_name_accepted K ns Hd) as (_ & _ & _ & Hq).
  rewrite (from_xml_current_condition_unchanged K s0 e c [] l).
  - cbn. now rewrite app_nil_r.
  - unfold e, s0, error_qname. cbn [tag own_error_qname set_own_qnames].
    now rewrite Hq.
  - reflexivity.
  - cbn [forallb]. rewrite andb_true_r. exact Hc.
  - exact Hobs.
Qed.

Lemma stanza_decode_as_encoded K ns attrs c l :
  rfc_error_namespaces K ->
  sanctioned_client_dialect K ns ->
  startswith (tag c) "{urn:ietf:params:xml:ns:xmpp-stanzas}" = true ->
  dict_contains String.eqb OBSOLETE_CONDITIONS (tag c) = false ->
  ErrorElement_from_xml K
    (set_custom_condition
       (set_text
          (set_own_qnames
             (set_legacy_code
                (set_error_type (new_object StanzaErrorElement_class) PyNone)
                PyNone)
             (qualify ns "error") (qualify ns "text")) []) [])
    (Element (STANZA_CLIENT_QNP K ++ "error") attrs None [c]) l
  = (Returns
       (set_condition
          (set_own_qnames
             (set_legacy_code
                (set_error_type (new_object StanzaErrorElement_class) PyNone)
                PyNone)
             (qualify ns "error") (qualify ns "text"))
          (Some (CondElement c))), l).
Proof.
  intros (_ & _ & _ & Hqnp) Hd Hc Hobs. rewrite <- Hqnp in Hc.
  exact (stanza_decode_single_condition K ns attrs c l Hd Hc Hobs).
Qed.

(** The three steps of a round trip for one name: construction,
    encoding, decoding. *)
Ltac stanza_construct Hns Hqnp :=
  unfold StanzaErrorElement_new, StanzaErrorElement_init, ErrorElement_init,
    STANZA_ERRORS_Q, cond_qname_prefix;
  cbn [class_of set_custom_condition set_text set_legacy_code set_error_type
         new_object];
  rewrite Hns, Hqnp; vm_compute; reflexivity.

Ltac stanza_decode Hrfc Hd Hns F1 F2 F3 :=
  unfold StanzaErrorElement_new, StanzaErrorElement_init;
  cbn [tag]; rewrite F1, F2, F3;
  unfold ErrorElement_init, _from_xml, StanzaErrorElement_from_xml, bind, ret;
  cbv beta iota zeta;
  cbn [negb class_of set_text set_custom_condition set_own_qnames
         set_legacy_code set_error_type new_object];
  cbv beta iota zeta;
  rewrite (stanza_decode_as_encoded _ _ _ _ _ Hrfc Hd) by reflexivity;
  unfold STANZA_ERRORS_Q; rewrite Hns; vm_compute; reflexivity.

(** X17. Under the RFC 6120 namespaces and with the client dialect
    sanctioned, every stanza condition survives the round trip without
    the legacy code, and every one but [undefined-condition] survives it
    with the legacy code: building the error from its name, encoding it
    and decoding the encoding returns an error with the same condition,
    error type and legacy code and without text. *)
Theorem stanza_condition_roundtrip (K : constants) (ns name msg ty : string)
  (code : Z) (legacy : bool) (l : log) :
  rfc_error_namespaces K ->
  sanctioned_client_dialect K ns ->
  dict_get String.eqb STANZA_ERRORS name = Some (msg, ty, code) ->
  (legacy = true -> name <> "undefined-condition") ->
  exists self el self',
    StanzaErrorElement_new K (ArgUnicode name) PyNone PyNone PyNone l
      = (Returns self, l) /\
    StanzaErrorElement_as_xml K self legacy l = (Returns el, l) /\
    StanzaErrorElement_new K (ArgElement el) PyNone PyNone PyNone l
      = (Returns self', l) /\
    condition self' = condition self /\
    error_type self' = error_type self /\
    _legacy_code self' = _legacy_code self /\
    text self' = [].
Proof.
  intros Hrfc Hd Hget Hleg.
  pose proof Hrfc as (_ & Hns & _ & Hqnp).
  destruct (stanza_client_name_accepted K ns Hd) as (F1 & F2 & F3 & _).
  pose (cond := new_element ("{urn:ietf:params:xml:ns:xmpp-stanzas}" ++ name)).
  exists {| class_of := StanzaErrorElement_class;
            own_error_qname := None; own_text_qname := None;
            condition := Some (CondElement cond);
            text := []; custom_condition := [];
            error_type := PyStr ty; _legacy_code := PyInt code |}.
  exists (Element (STANZA_CLIENT_QNP K ++ "error")
            (("type", PyStr ty)
               :: if legacy then [("code", PyInt code)] else [])
            None [cond]).
  exists {| class_of := StanzaErrorElement_class;
            own_error_qname := Some (qualify ns "error");
            own_text_qname := Some (qualify ns "text");
            condition := Some (CondElement cond);
            text := []; custom_condition := [];
            error_type := PyStr ty; _legacy_code := PyInt code |}.
  subst cond.
  apply dict_get_In in Hget. unfold STANZA_ERRORS in Hget. cbn [In] in Hget.
  repeat (destruct Hget as [Hget|Hget];
    [inversion Hget; subst name msg ty code; clear Hget;
     destruct legacy;
     try (exfalso; apply (Hleg eq_refl); reflexivity);
     (split; [stanza_construct Hns Hqnp|];
      split; [reflexivity|];
      split; [stanza_decode Hrfc Hd Hns F1 F2 F3|];
      repeat split)|]).
  contradiction.
Qed.

Lemma stanza_condition_roundtrip_witness :
  exists self el self',
    StanzaErrorElement_new xmpp_constants (ArgUnicode "conflict")
      PyNone PyNone PyNone [] = (Returns self, []) /\
    StanzaErrorElement_as_xml xmpp_constants self true [] = (Returns el, [])
    /\
    StanzaErrorElement_new xmpp_constants (ArgElement el)
      PyNone PyNone PyNone [] = (Returns self', []) /\
    condition self' = condition self /\
    error_type self' = error_type self /\
    _legacy_code self' = _legacy_code self /\
    text self' = [].
Proof.
  apply (stanza_condition_roundtrip xmpp_constants "jabber:client" "conflict"
           "Named session or resource already exists" "cancel" 409 true []).
  - repeat split.
  - split; [reflexivity|]. split; [|reflexivity]. vm_compute. tauto.
  - reflexivity.
  - discriminate.
Defined.

(** X18. The exception to the round trip: under the same assumptions,
    decoding the [legacy] encoding of the error built from
    [undefined-condition] raises [AttributeError].  The encoding carries
    the integer code 500, which is a key of [LEGACY_CODES], so decoding
    replaces the condition by a plain string and then reads its [tag]. *)
Theorem stanza_undefined_condition_legacy_roundtrip_raises (K : constants)
  (ns : string) (l : log) :
  rfc_error_namespaces K ->
  sanctioned_client_dialect K ns ->
  exists self el,
    StanzaErrorElement_new K (ArgUnicode "undefined-condition")
      PyNone PyNone PyNone l = (Returns self, l) /\
    StanzaErrorElement_as_xml K self true l = (Returns el, l) /\
    elem_get el "code" = PyInt 500 /\
    StanzaErrorElement_new K (ArgElement el) PyNone PyNone PyNone l
    = (Raises (AttributeError "'str' object has no attribute 'tag'"), l).
Proof.
  intros Hrfc Hd.
  pose proof Hrfc as (_ & Hns & _ & Hqnp).
  destruct (stanza_client_name_accepted K ns Hd) as (F1 & F2 & F3 & _).
  exists {| class_of := StanzaErrorElement_class;
            own_error_qname := None; own_text_qname := None;
            condition :=
              Some (CondElement
                      (new_element
                         "{urn:ietf:params:xml:ns:xmpp-stanzas}undefined-condition"));
            text := []; custom_condition := [];
            error_type := PyStr "cancel"; _legacy_code := PyInt 500 |}.
  exists (Element (STANZA_CLIENT_QNP K ++ "error")
            [("type", PyStr "cancel"); ("code", PyInt 500)] None
            [new_element
               "{urn:ietf:params:xml:ns:xmpp-stanzas}undefined-condition"]).
  split; [stanza_construct Hns Hqnp|].
  split; [reflexivity|].
  split; [reflexivity|].
  stanza_decode Hrfc Hd Hns F1 F2 F3.
Qed.

Lemma stanza_undefined_condition_legacy_roundtrip_raises_witness :
  exists self el,
    StanzaErrorElement_new xmpp_constants (ArgUnicode "undefined-condition")
      PyNone PyNone PyNone [] = (Returns self, []) /\
    StanzaErrorElement_as_xml xmpp_constants self true [] = (Returns el, [])
    /\
    elem_get el "code" = PyInt 500 /\
    StanzaErrorElement_new xmpp_constants (ArgElement el)
      PyNone PyNone PyNone []
    = (Raises (AttributeError "'str' object has no attribute 'tag'"), []).
Proof.
  apply (stanza_undefined_condition_legacy_roundtrip_raises xmpp_constants
           "jabber:client" []).
  - repeat split.
  - split; [reflexivity|]. split; [|reflexivity]. vm_compute. tauto.
Defined.

(** ** Elements without a condition, and children that are none *)

(** X19. Under the RFC 6120 namespaces and with the client dialect
    sanctioned, a stanza error element without children, whose [code]
    attribute is absent or a string, decodes without a warning to an error
    with the synthesized condition [undefined-condition]; its error type
    is the [type] attribute when that is non-empty and ["cancel"]
    otherwise, its legacy code is the [code] attribute when that is
    non-empty and 500 otherwise.  The text of the element is ignored. *)
Theorem stanza_decode_without_condition (K : constants) (ns : string)
  (attrs : list (string * pyval)) (txt : option string) (l : log) :
  rfc_error_namespaces K ->
  sanctioned_client_dialect K ns ->
  let e := Element (STANZA_CLIENT_QNP K ++ "error") attrs txt [] in
  (elem_get e "code" = PyNone \/ exists s, elem_get e "code" = PyStr s) ->
  exists self,
    StanzaErrorElement_new K (ArgElement e) PyNone PyNone PyNone l
      = (Returns self, l) /\
    condition self
      = Some (CondElement (new_element UNDEFINED_STANZA_CONDITION)) /\
    error_type self
      = (if truthy (elem_get e "type") then elem_get e "type"
         else PyStr "cancel") /\
    _legacy_code self
      = (if truthy (elem_get e "code") then elem_get e "code"
         else PyInt 500) /\
    text self = [] /\ custom_condition self = [].
Proof.
  intros Hrfc Hd e Hcode. unfold e in *. clear e.
  pose proof Hrfc as (_ & Hns & _ & Hqnp).
  destruct (stanza_client_name_accepted K ns Hd) as (F1 & F2 & F3 & F4).
  assert (Hbase :
    ErrorElement_from_xml K
      (set_custom_condition
         (set_text
            (set_own_qnames
               (set_legacy_code
                  (set_error_type (new_object StanzaErrorElement_class) PyNone)
                  PyNone)
               (qualify ns "error") (qualify ns "text")) []) [])
      (Element (STANZA_CLIENT_QNP K ++ "error") attrs txt []) l
    = (Returns
         (set_condition
            (set_own_qnames
               (set_legacy_code
                  (set_error_type (new_object StanzaErrorElement_class) PyNone)
                  PyNone)
               (qualify ns "error") (qualify ns "text"))
            (Some (CondElement (new_element UNDEFINED_STANZA_CONDITION)))), l)).
  { rewrite ErrorElement_from_xml_conditions.
    - unfold identified_condition, cond_qname_prefix.
      cbn [children class_of set_custom_condition set_text set_own_qnames].
      rewrite Hqnp. cbn. now rewrite app_nil_r.
    - unfold error_qname.
      cbn [tag own_error_qname set_custom_condition set_text set_own_qnames].
      now rewrite F4.
    - reflexivity. }
  unfold StanzaErrorElement_new, StanzaErrorElement_init.
  cbn [tag]. rewrite F1, F2, F3.
  unfold ErrorElement_init, _from_xml, StanzaErrorElement_from_xml, bind, ret.
  cbv beta iota zeta.
  cbn [negb class_of set_text set_custom_condition set_own_qnames
         set_legacy_code set_error_type new_object].
  cbv beta iota zeta.
  rewrite Hbase.
  unfold STANZA_ERRORS_Q. rewrite Hns.
  generalize dependent
    (elem_get (Element (STANZA_CLIENT_QNP K ++ "error") attrs txt []) "type").
  generalize dependent
    (elem_get (Element (STANZA_CLIENT_QNP K ++ "error") attrs txt []) "code").
  intros vc Hcode vt.
  destruct Hcode as [-> | (s & ->)];
    [|destruct s as [|a s]];
    (destruct vt as [|t|z]; [|destruct t as [|b t]|destruct z as [|p|p]]);
    (eexists; split; [vm_compute; reflexivity | repeat split]).
Qed.

Lemma stanza_decode_without_condition_witness :
  exists self,
    StanzaErrorElement_new xmpp_constants
      (ArgElement
         (Element "{jabber:client}error" [("code", PyStr "404")]
            (Some "Not Found") []))
      PyNone PyNone PyNone [] = (Returns self, []) /\
    condition self
      = Some (CondElement (new_element UNDEFINED_STANZA_CONDITION)) /\
    error_type self = PyStr "cancel" /\
    _legacy_code self = PyStr "404" /\
    text self = [] /\ custom_condition self = [].
Proof.
  apply (stanza_decode_without_condition xmpp_constants "jabber:client"
           [("code", PyStr "404")] (Some "Not Found") []).
  - repeat split.
  - split; [reflexivity|]. split; [|reflexivity]. vm_compute. tauto.
  - right. exists "404". reflexivity.
Defined.

Lemma from_xml_first_other_child K self e pre child post l :
  tag e = error_qname K self ->
  children e = pre ++ child :: post ->
  forallb (is_condition_child K self) pre = true ->
  is_condition_child K self child = false ->
  ErrorElement_from_xml K self e l
  = (Raises (NameError (if is_text_child K self child
                        then "XML_LANG_QNAME" else "STANZA_SERVER_QNP")),
     l ++ repeat multiple_conditions_warning (pred (length pre))).
Proof.
  intros Ht Hc Hpre Hother. unfold ErrorElement_from_xml.
  rewrite Ht, String.eqb_refl, Hc. cbn [negb].
  set (self0 := set_condition self None).
  assert (Hs : same_class self self0) by (repeat split).
  assert (Hstep : forall s l1, same_class self s ->
            from_xml_children K s (child :: post) l1
            = (Raises (NameError (if is_text_child K self child
                                  then "XML_LANG_QNAME"
                                  else "STANZA_SERVER_QNP")), l1)).
  { intros s l1 Hs1. cbn [from_xml_children].
    apply bind_raises.
    rewrite from_xml_child_other.
    - unfold is_text_child, is_condition_child in *.
      now rewrite <- (same_class_cond_prefix K _ _ Hs1),
                  <- (same_class_text_qname K _ _ Hs1).
    - unfold is_condition_child in *.
      now rewrite <- (same_class_cond_prefix K _ _ Hs1). }
  rewrite (same_class_condition_children K _ _ pre Hs) in Hpre.
  destruct pre as [|c pre].
  - cbn [app length pred repeat]. rewrite app_nil_r.
    apply bind_raises. apply Hstep, Hs.
  - cbn [length pred].
    apply bind_raises. rewrite from_xml_children_app.
    erewrite bind_returns; cycle 1.
    { apply from_xml_children_conditions; [reflexivity | exact Hpre]. }
    apply Hstep. repeat split.
Qed.

(** X20. A child that is neither a condition candidate nor a text
    element - what would be a custom condition - makes the decoding of a
    stream error raise [NameError] as soon as the loop reaches it: the
    name [STANZA_SERVER_QNP] is read but not bound.  No custom condition is
    ever decoded. *)
Theorem stream_decode_custom_child_raises_NameError (K : constants)
  (e : element) (pre post : list element) (child : element)
  (description lang : pyval) (l : log) :
  tag e = (STREAM_QNP K ++ "error")%string ->
  children e = pre ++ child :: post ->
  forallb (fun c => startswith (tag c) (STREAM_ERROR_QNP K)) pre = true ->
  startswith (tag child) (STREAM_ERROR_QNP K) = false ->
  tag child <> (STREAM_QNP K ++ "text")%string ->
  StreamErrorElement_new K (ArgElement e) description lang l
  = (Raises (NameError "STANZA_SERVER_QNP"),
     l ++ repeat "Multiple conditions in XMPP error node."
            (pred (length pre))).
Proof.
  intros Ht Hc Hpre Hother Hnt.
  unfold StreamErrorElement_new, StreamErrorElement_init, ErrorElement_init,
    _from_xml.
  cbn [class_of new_object set_text set_custom_condition].
  unfold bind at 1. cbn [ret].
  apply bind_raises.
  etransitivity;
    [exact (from_xml_first_other_child K
              (new_object StreamErrorElement_class) e pre child post l
              Ht Hc Hpre Hother)|].
  unfold is_text_child, is_condition_child, text_qname.
  cbn [cond_qname_prefix class_of own_text_qname new_object class_text_qname].
  apply String.eqb_neq in Hnt. rewrite Hother, Hnt. reflexivity.
Qed.

Lemma stream_decode_custom_child_raises_NameError_witness :
  StreamErrorElement_new xmpp_constants
    (ArgElement
       (Element "{http://etherx.jabber.org/streams}error" [] None
          [new_element "{urn:ietf:params:xml:ns:xmpp-streams}see-other-host";
           new_element "{http://example.org/ns}retry-after"]))
    PyNone PyNone []
  = (Raises (NameError "STANZA_SERVER_QNP"), []).
Proof.
  apply (stream_decode_custom_child_raises_NameError xmpp_constants
           (Element "{http://etherx.jabber.org/streams}error" [] None
              [new_element
                 "{urn:ietf:params:xml:ns:xmpp-streams}see-other-host";
               new_element "{http://example.org/ns}retry-after"])
           [new_element "{urn:ietf:params:xml:ns:xmpp-streams}see-other-host"]
           [] (new_element "{http://example.org/ns}retry-after")).
  - reflexivity.
  - reflexivity.
  - vm_compute. reflexivity.
  - vm_compute. reflexivity.
  - discriminate.
Defined.

(** ** The tables *)

(** X21. The tables fit together under the RFC 6120 namespaces: every
    default code of [STANZA_ERRORS] is a key of [LEGACY_CODES]; every
    condition that [LEGACY_CODES] names is registered in [STANZA_ERRORS_Q]
    or is an obsolete one; and every replacement in [OBSOLETE_CONDITIONS]
    is a registered condition that is not obsolete itself. *)
Theorem tables_fit_together (K : constants) :
  rfc_error_namespaces K ->
  (forall name msg ty code,
      In (name, (msg, ty, code)) STANZA_ERRORS ->
      dict_contains pyval_eqb LEGACY_CODES (PyInt code) = true) /\
  (forall code cond,
      In (code, cond) LEGACY_CODES ->
      dict_contains String.eqb (STANZA_ERRORS_Q K) cond
      || dict_contains String.eqb OBSOLETE_CONDITIONS cond = true) /\
  (forall old new,
      In (old, new) OBSOLETE_CONDITIONS ->
      dict_contains String.eqb OBSOLETE_CONDITIONS new = false /\
      dict_contains String.eqb (STREAM_ERRORS_Q K) new
      || dict_contains String.eqb (STANZA_ERRORS_Q K) new = true).
Proof.
  intros (Hs & Hns & _ & _).
  unfold STANZA_ERRORS_Q, STREAM_ERRORS_Q. rewrite Hs, Hns.
  split; [|split].
  - intros name msg ty code Hin. unfold STANZA_ERRORS in Hin.
    cbn [In] in Hin.
    repeat (destruct Hin as [Hin|Hin];
            [inversion Hin; subst; vm_compute; reflexivity|]).
    contradiction.
  - intros code cond Hin. unfold LEGACY_CODES in Hin. cbn [In] in Hin.
    repeat (destruct Hin as [Hin|Hin];
            [inversion Hin; subst; vm_compute; reflexivity|]).
    contradiction.
  - intros old new Hin. unfold OBSOLETE_CONDITIONS in Hin. cbn [In] in Hin.
    repeat (destruct Hin as [Hin|Hin];
            [inversion Hin; subst; split; vm_compute; reflexivity|]).
    contradiction.
Qed.

Lemma tables_fit_together_witness :
  dict_contains pyval_eqb LEGACY_CODES (PyInt 407) = true.
Proof.
  apply (proj1 (tables_fit_together xmpp_constants
                  (conj eq_refl (conj eq_refl (conj eq_refl eq_refl))))
           "subscription-required" "Subscription is required" "auth" 407%Z).
  vm_compute. tauto.
Defined.
